(** * Job application service: intake, status updates and offer letters

    A shallow embedding of the two Express servers of the repository:

    - [Root]: the server that creates its own table ([initializeDatabase]),
      serves the HR page and the offer-letter page, and gates offer letters
      on the [Approved] status;
    - [Backend]: [Backend/server.js], the containerised server that runs
      against the table of [init.sql].

    Both talk to one PostgreSQL table, [job_applications], and one upload
    directory.  The table, the directory and the list of SQL statements sent
    to the pool make up the [world] the handlers run in.  A handler is a
    computation in a small state-and-exception monad, so that [try]/[catch],
    [await pool.query] and [fs.unlinkSync] read as they do in the source.

    What the model takes from outside the handlers: the database is
    reachable, and a statement of the model's table fails only on a
    uniqueness constraint or on an id that is not an integer; the text
    fields of a form are strings; a path parameter comes as the number the
    server reads in it; the clock and [Math.random] are given by the
    environment of a request; multer has accepted the files of a request and
    written them under their generated names before the handler runs.
    Requests are handled one at a time.

    The table of the model keeps the columns the handlers read back, not
    the timestamps or the profile columns, and checks neither the width nor
    the type of a column.  Where a property of the intake depends on what
    the database accepts, it is stated for the handler run on any [INSERT]
    ([submit_on], [insert_statement]); where it depends on an id reaching a
    row lookup, the id is one PostgreSQL reads as an [INTEGER] ([int4]). *)

From Stdlib Require Import ZArith String Ascii List Bool Lia.
From stdpp Require Import base option list gmap strings pretty.
Import ListNotations.

Local Open Scope string_scope.
Local Open Scope list_scope.

(** ** JavaScript values and truthiness *)

(** The values a JSON body can hold.  [JOther] stands for arrays and
    objects, of which the handlers only ever test truthiness or equality
    with a string. *)
Inductive jsval :=
| JUndefined
| JNull
| JBool (b : bool)
| JNum (n : Z)
| JStr (s : string)
| JOther.

(** [!!v] of JavaScript. *)
Definition truthy (v : jsval) : bool :=
  match v with
  | JUndefined | JNull => false
  | JBool b => b
  | JNum n => negb (n =? 0)%Z
  | JStr s => negb (String.eqb s "")
  | JOther => true
  end.

(** [formData[field]] for a form whose text fields are strings. *)
Definition field (body : gmap string string) (name : string) : jsval :=
  match body !! name with
  | Some s => JStr s
  | None => JUndefined
  end.

(** [x || null] on a text field. *)
Definition or_null (v : jsval) : option string :=
  match v with
  | JStr s => if truthy v then Some s else None
  | _ => None
  end.

(** [Array.prototype.includes] on an array of strings. *)
Definition includes_value (l : list string) (v : jsval) : bool :=
  match v with
  | JStr s => existsb (String.eqb s) l
  | _ => false
  end.

(** [String.prototype.includes]. *)
Fixpoint includes (needle hay : string) : bool :=
  String.prefix needle hay ||
  match hay with
  | EmptyString => false
  | String _ rest => includes needle rest
  end.

(** ** The table [job_applications] *)

(** One row.  The columns kept are the identity, the contact fields, the
    status and the document pointers; the remaining profile columns are
    plain data that no handler reads back. *)
Record application := {
  app_id : Z;
  reference_id : string;
  full_name : string;
  email : string;
  mobile_number : string;
  department : string;
  job_role : string;
  status : string;
  ssc_doc_path : option string;
  intermediate_doc_path : option string;
  graduation_doc_path : option string;
  additional_files_path : option string;
  offer_letter_path : option string
}.

(** The table with its [SERIAL] sequence and the uniqueness constraints of
    its schema.  [reference_id] is [UNIQUE] in both schemas; [email] and
    [mobile_number] are [UNIQUE] in the table of [initializeDatabase] and
    not in the table of [init.sql]. *)
Record table := {
  rows : list application;
  next_id : Z;
  email_unique : bool;
  mobile_unique : bool
}.

(** A thrown JavaScript error, as far as the handlers look at it:
    [err.constraint] and [err.message]. *)
Record exn := {
  constraint : option string;
  err_message : string
}.

Definition dquote : string := String (ascii_of_nat 34) EmptyString.

Definition unique_violation (name : string) : exn :=
  {| constraint := Some name;
     err_message :=
       "duplicate key value violates unique constraint " +:+ dquote +:+ name +:+ dquote |}.

Definition invalid_integer : exn :=
  {| constraint := None;
     err_message := "invalid input syntax for type integer" |}.

Definition enoent (name : string) : exn :=
  {| constraint := None;
     err_message := "ENOENT: no such file or directory, unlink '" +:+ name +:+ "'" |}.

Definition type_error (prop : string) : exn :=
  {| constraint := None;
     err_message := "Cannot read properties of undefined (reading '" +:+ prop +:+ "')" |}.

(** The constraint a new row violates, if any, in the order of the
    columns. *)
Definition violated (t : table) (a : application) : option string :=
  if existsb (fun r => String.eqb (reference_id r) (reference_id a)) (rows t)
  then Some "job_applications_reference_id_key"
  else if email_unique t && existsb (fun r => String.eqb (email r) (email a)) (rows t)
  then Some "job_applications_email_key"
  else if mobile_unique t && existsb (fun r => String.eqb (mobile_number r) (mobile_number a)) (rows t)
  then Some "job_applications_mobile_number_key"
  else None.

Definition bump (t : table) : table :=
  {| rows := rows t; next_id := (next_id t + 1)%Z;
     email_unique := email_unique t; mobile_unique := mobile_unique t |}.

Definition with_rows (t : table) (l : list application) : table :=
  {| rows := l; next_id := next_id t;
     email_unique := email_unique t; mobile_unique := mobile_unique t |}.

(** [INSERT ... RETURNING]: the row is given as a function of the id the
    sequence assigns.  The sequence advances whether or not the insert goes
    through.  Of what PostgreSQL checks, this has the uniqueness constraints
    only; the widths and the types of the columns are left to
    [checked_insert]. *)
Definition insert (t : table) (mk : Z -> application) : exn + application * table :=
  let a := mk (next_id t) in
  match violated t a with
  | Some c => inl (unique_violation c)
  | None => inr (a, bump (with_rows t (rows t ++ [a])))
  end.

Definition set_status (st : string) (a : application) : application :=
  {| app_id := app_id a; reference_id := reference_id a; full_name := full_name a;
     email := email a; mobile_number := mobile_number a; department := department a;
     job_role := job_role a; status := st;
     ssc_doc_path := ssc_doc_path a; intermediate_doc_path := intermediate_doc_path a;
     graduation_doc_path := graduation_doc_path a;
     additional_files_path := additional_files_path a;
     offer_letter_path := offer_letter_path a |}.

Definition set_offer_letter_path (p : string) (a : application) : application :=
  {| app_id := app_id a; reference_id := reference_id a; full_name := full_name a;
     email := email a; mobile_number := mobile_number a; department := department a;
     job_role := job_role a; status := status a;
     ssc_doc_path := ssc_doc_path a; intermediate_doc_path := intermediate_doc_path a;
     graduation_doc_path := graduation_doc_path a;
     additional_files_path := additional_files_path a;
     offer_letter_path := Some p |}.

(** [UPDATE ... SET ... WHERE id = i]: every row with that id is rewritten. *)
Definition update_where_id (i : Z) (f : application -> application)
    (l : list application) : list application :=
  map (fun r => if (app_id r =? i)%Z then f r else r) l.

(** [... WHERE id = i]: the rows selected, or returned by [RETURNING]. *)
Definition where_id (i : Z) (l : list application) : list application :=
  List.filter (fun r => (app_id r =? i)%Z) l.

(** ** The world: table, upload directory, statements sent *)

(** The statements a handler can send to the pool.  The id of a statement
    is what PostgreSQL reads in the integer column: [None] when the text it
    was given is not an integer. *)
Inductive stmt :=
| Insert (ref : string)
| Select_by_id (i : Z)
| Select_offer (ref mail : string)
| Update_status (st : string) (i : option Z)
| Update_offer (p : string) (i : option Z).

(** [uploads] maps each file name of the upload directory to its content. *)
Record world := {
  db : table;
  uploads : gmap string string;
  queries : list stmt
}.

Definition with_db (w : world) (t : table) : world :=
  {| db := t; uploads := uploads w; queries := queries w |}.

Definition with_uploads (w : world) (u : gmap string string) : world :=
  {| db := db w; uploads := u; queries := queries w |}.

Definition sent (w : world) (q : stmt) : world :=
  {| db := db w; uploads := uploads w; queries := queries w ++ [q] |}.

(** ** Handlers as computations *)

(** A computation runs in a world and either throws or returns. *)
Definition M (A : Type) : Type := world -> (exn + A) * world.

Definition ret {A} (a : A) : M A := fun w => (inr a, w).

Definition throw {A} (e : exn) : M A := fun w => (inl e, w).

Definition bind {A B} (m : M A) (k : A -> M B) : M B :=
  fun w =>
    match m w with
    | (inl e, w') => (inl e, w')
    | (inr a, w') => k a w'
    end.

(** [try { body } catch (err) { handler err }]. *)
Definition try_catch {A} (body : M A) (handler : exn -> M A) : M A :=
  fun w =>
    match body w with
    | (inl e, w') => handler e w'
    | (inr a, w') => (inr a, w')
    end.

Notation "'let*' x ':=' c1 'in' c2" := (bind c1 (fun x => c2))
  (at level 10, x name, c1 at level 100, c2 at level 200).

Notation "c1 ';;' c2" := (bind c1 (fun _ => c2))
  (at level 100, c2 at level 200, right associativity).

(** *** [pool.query] *)

Definition query_insert (mk : Z -> application) : M application :=
  fun w =>
    let w1 := sent w (Insert (reference_id (mk (next_id (db w))))) in
    match insert (db w) mk with
    | inl e => (inl e, with_db w1 (bump (db w)))
    | inr (a, t) => (inr a, with_db w1 t)
    end.

Definition query_select_by_id (i : Z) : M (list application) :=
  fun w => (inr (where_id i (rows (db w))), sent w (Select_by_id i)).

(** [SELECT ... WHERE reference_id = $1 AND email = $2 AND status = 'Approved'] *)
Definition query_select_offer (ref mail : string) : M (list application) :=
  fun w =>
    (inr (List.filter
            (fun r => String.eqb (reference_id r) ref
                      && String.eqb (email r) mail
                      && String.eqb (status r) "Approved")
            (rows (db w))),
     sent w (Select_offer ref mail)).

Definition query_update (q : stmt) (i : option Z) (f : application -> application)
    : M (list application) :=
  fun w =>
    match i with
    | None => (inl invalid_integer, sent w q)
    | Some n =>
        let l := update_where_id n f (rows (db w)) in
        (inr (where_id n l), with_db (sent w q) (with_rows (db w) l))
    end.

(** [UPDATE job_applications SET status = $1 WHERE id = $2 RETURNING ...] *)
Definition query_update_status (st : string) (i : option Z) : M (list application) :=
  query_update (Update_status st i) i (set_status st).

(** [UPDATE job_applications SET offer_letter_path = $1 WHERE id = $2 RETURNING ...] *)
Definition query_update_offer (p : string) (i : option Z) : M (list application) :=
  query_update (Update_offer p i) i (set_offer_letter_path p).

(** *** The upload directory *)

Definition existsSync (name : string) : M bool :=
  fun w => (inr (bool_decide (is_Some (uploads w !! name))), w).

Definition unlinkSync (name : string) : M unit :=
  fun w =>
    match uploads w !! name with
    | Some _ => (inr tt, with_uploads w (delete name (uploads w)))
    | None => (inl (enoent name), w)
    end.

(** A file as multer hands it to a handler: the name it was stored under
    ([fieldname-<time>-<random><ext>]) and its bytes. *)
Record upfile := {
  filename : string;
  content : string
}.

(** The disk storage of multer writes a file under its generated name
    before the handler runs. *)
Definition store_file (f : upfile) (w : world) : world :=
  with_uploads w (<[filename f := content f]> (uploads w)).

Definition store_files (fs : list upfile) (w : world) : world :=
  fold_left (fun w f => store_file f w) fs w.

(** The name the disk storage gives a file: the field name, the time and
    a draw of [Math.round(Math.random() * 1e9)], both in decimal, and
    [ext], what [path.extname] returns for the original name. *)
Definition stored_name (fieldname : string) (time draw : N) (ext : string) : string :=
  fieldname +:+ "-" +:+ pretty time +:+ "-" +:+ pretty draw +:+ ext.

(** An error handed to [next] by a middleware: whether it is a
    [MulterError], and its message. *)
Inductive thrown :=
| Multer_error (msg : string)
| Plain_error (msg : string).

Definition to_lower_ascii (c : ascii) : ascii :=
  let n := nat_of_ascii c in
  if (65 <=? n)%nat && (n <=? 90)%nat then ascii_of_nat (n + 32) else c.

(** [toLowerCase], on the letters A to Z. *)
Fixpoint toLowerCase (s : string) : string :=
  match s with
  | EmptyString => EmptyString
  | String c rest => String (to_lower_ascii c) (toLowerCase rest)
  end.

(** ** Responses *)

Inductive payload :=
| no_payload
| missing (fields : list string)
| reference (ref : string)
| row (a : application)
| id_status (i : Z) (st : string)
| id_offer (i : Z) (p : option string)
| offer (p : option string)
| file_path (p : string).

(** [message] is the [message] or [error] member of the JSON body,
    [details] the [details] member of the intake error of [Backend]. *)
Record response := {
  code : nat;
  success : bool;
  message : option string;
  data : payload;
  details : option string
}.

Definition reply (c : nat) (ok : bool) (m : option string) (d : payload) : response :=
  {| code := c; success := ok; message := m; data := d; details := None |}.

(** What a route leaves behind: the response sent, if the handler got to
    send one, and the world after it. *)
Definition outcome : Type := option response * world.

Definition run (h : M response) (w : world) : outcome :=
  match h w with
  | (inr r, w') => (Some r, w')
  | (inl _, w') => (None, w')
  end.

(** What [GET /api/documents/:filename] sends: the file, under its name, or
    a JSON answer. *)
Inductive download :=
| file_sent (name content : string)
| not_sent (r : response).

(** ** Requests *)

(** What the environment decides for one request: the clock, the draws of
    [Math.random] (the [k]-th draw scaled and floored, reduced to its range
    where it is used) and whether [NODE_ENV] is [development]. *)
Record env := {
  now : N;
  draws : nat -> nat;
  development : bool
}.

(** [POST /api/applications]: the text fields, and the files by field name
    in the order multer stored them; [files] is [None] when the request is
    not multipart, so that [req.files] is undefined. *)
Record submission := {
  body : gmap string string;
  files : option (list (string * upfile))
}.

(** [req.files[name]] *)
Definition file_of (name : string) (fs : list (string * upfile)) : option upfile :=
  snd <$> List.find (fun p => String.eqb (fst p) name) fs.

(** Truthiness of [req.files[name]]: an array or undefined. *)
Definition present {A} (o : option A) : bool :=
  match o with
  | Some _ => true
  | None => false
  end.

Definition staged (req : submission) : list upfile :=
  match files req with
  | Some fs => map snd fs
  | None => []
  end.

(** [PUT /api/applications/:id].  [put_id] is the path parameter as the
    server reads it as a number: through [parseInt] in [Root] ([None] is
    [NaN]), through the integer column of PostgreSQL in [Backend] ([None] is
    a text that is not an integer). *)
Record status_request := {
  put_id : option Z;
  put_status : jsval
}.

(** [POST /api/applications/:id/offer-letter], the id read as in
    [status_request]. *)
Record offer_request := {
  offer_id : option Z;
  offer_file : option upfile
}.

(** [GET /api/offer-letter?reference_id=..&email=..] *)
Record retrieval := {
  query_reference_id : option string;
  query_email : option string
}.

Definition text_of (v : jsval) : string :=
  match v with
  | JStr s => s
  | _ => ""
  end.

Definition of_option (o : option string) : jsval :=
  match o with
  | Some s => JStr s
  | None => JNull
  end.

Definition statuses : list string := ["Pending"; "Approved"; "Rejected"].

(** ** The server of the repository root *)

Module Root.

Definition requiredFields : list string :=
  [ "full_name"; "email"; "mobile_number"; "department"; "job_role";
    "dob"; "father_name"; "permanent_address"; "expected_salary";
    "employment_type"; "branch_location"; "ssc_year"; "ssc_percentage";
    "intermediate_year"; "intermediate_percentage"; "college_name";
    "register_number"; "graduation_year"; "graduation_percentage";
    "experience_status" ].

Definition chars : string := "ABCDEFGHIJKLMNOPQRSTUVWXYZ0123456789".

Definition char_at (i : nat) : ascii :=
  match String.get i chars with
  | Some c => c
  | None => "A"%char
  end.

Definition generateReferenceId (e : env) : string :=
  string_of_list_ascii
    (map (fun k => char_at (draws e k mod String.length chars)) (seq 0 15)).

Definition new_application (referenceId : string) (req : submission)
    (fs : list (string * upfile)) (i : Z) : application :=
  {| app_id := i;
     reference_id := referenceId;
     full_name := text_of (field (body req) "full_name");
     email := text_of (field (body req) "email");
     mobile_number := text_of (field (body req) "mobile_number");
     department := text_of (field (body req) "department");
     job_role := text_of (field (body req) "job_role");
     status := "Pending";
     ssc_doc_path := or_null (of_option (filename <$> file_of "sscDoc" fs));
     intermediate_doc_path := or_null (of_option (filename <$> file_of "intermediateDoc" fs));
     graduation_doc_path := or_null (of_option (filename <$> file_of "graduationDoc" fs));
     additional_files_path := or_null (of_option (filename <$> file_of "additional_files" fs));
     offer_letter_path := None |}.

Definition submit_error (err : exn) : string :=
  if bool_decide (constraint err = Some "job_applications_email_key")
  then "Email already exists"
  else if bool_decide (constraint err = Some "job_applications_mobile_number_key")
  then "Mobile number already exists"
  else if includes "Only PDF" (err_message err) then err_message err
  else "Failed to submit application".

(** The handler of [POST /api/applications], after [upload]. *)
Definition submit (e : env) (req : submission) : M response :=
  try_catch
    (match List.find (fun f => negb (truthy (field (body req) f))) requiredFields with
     | Some f => ret (reply 400 false (Some ("Missing field: " +:+ f)) no_payload)
     | None =>
         let* fs := match files req with
                    | Some fs => ret fs
                    | None => throw (type_error "sscDoc")
                    end in
         if negb (present (file_of "sscDoc" fs))
            || negb (present (file_of "intermediateDoc" fs))
            || negb (present (file_of "graduationDoc" fs))
         then ret (reply 400 false (Some "Missing required documents") no_payload)
         else
           let referenceId := generateReferenceId e in
           let* a := query_insert (new_application referenceId req fs) in
           ret (reply 201 true None (reference (reference_id a)))
     end)
    (fun err => ret (reply 500 false (Some (submit_error err)) no_payload)).

(** The route: multer stores the files, then the handler runs. *)
Definition post_applications (e : env) (req : submission) (w : world) : outcome :=
  run (submit e req) (store_files (staged req) w).

(** [PUT /api/applications/:id] *)
Definition put_application (req : status_request) : M response :=
  try_catch
    (match put_id req with
     | None => ret (reply 400 false (Some "Invalid application ID") no_payload)
     | Some i =>
         if negb (includes_value statuses (put_status req))
         then ret (reply 400 false (Some "Invalid status") no_payload)
         else
           let* result := query_update_status (text_of (put_status req)) (Some i) in
           match result with
           | [] => ret (reply 404 false (Some "Application not found") no_payload)
           | r :: _ => ret (reply 200 true None (id_status (app_id r) (status r)))
           end
     end)
    (fun _ => ret (reply 500 false (Some "Failed to update status") no_payload)).

Definition put_applications_id (req : status_request) (w : world) : outcome :=
  run (put_application req) w.

(** The deletion of a recorded previous offer letter. *)
Definition delete_previous (r : application) : M unit :=
  match offer_letter_path r with
  | Some old =>
      if truthy (JStr old)
      then let* there := existsSync old in
           if there then unlinkSync old else ret tt
      else ret tt
  | None => ret tt
  end.

(** The handler of [POST /api/applications/:id/offer-letter], after
    [offerLetterUpload]. *)
Definition upload_offer_letter (req : offer_request) : M response :=
  try_catch
    (match offer_id req with
     | None => ret (reply 400 false (Some "Invalid application ID") no_payload)
     | Some i =>
         match offer_file req with
         | None => ret (reply 400 false (Some "No file uploaded") no_payload)
         | Some file =>
             let* checkApplication := query_select_by_id i in
             match checkApplication with
             | [] =>
                 unlinkSync (filename file) ;;
                 ret (reply 404 false (Some "Application not found") no_payload)
             | r :: _ =>
                 if negb (String.eqb (status r) "Approved")
                 then
                   unlinkSync (filename file) ;;
                   ret (reply 400 false
                          (Some "Application must be approved to upload an offer letter")
                          no_payload)
                 else
                   delete_previous r ;;
                   let* result := query_update_offer (filename file) (Some i) in
                   ret (reply 200 true None
                          match result with
                          | r' :: _ => id_offer (app_id r') (offer_letter_path r')
                          | [] => no_payload
                          end)
             end
         end
     end)
    (fun err =>
       match offer_file req with
       | Some file => unlinkSync (filename file)
       | None => ret tt
       end ;;
       ret (reply 500 false
              (Some (if includes "Only PDF" (err_message err)
                     then err_message err
                     else "Failed to upload offer letter"))
              no_payload)).

Definition post_offer_letter (req : offer_request) (w : world) : outcome :=
  run (upload_offer_letter req)
      (store_files (match offer_file req with Some f => [f] | None => [] end) w).

(** [GET /api/offer-letter] *)
Definition download_offer_letter (req : retrieval) : M response :=
  try_catch
    (if negb (truthy (of_option (query_reference_id req)))
        || negb (truthy (of_option (query_email req)))
     then ret (reply 400 false (Some "Reference ID and email are required") no_payload)
     else
       let* result := query_select_offer (text_of (of_option (query_reference_id req)))
                                         (text_of (of_option (query_email req))) in
       match result with
       | [] => ret (reply 404 false (Some "Application not found or not approved") no_payload)
       | r :: _ =>
           if negb (truthy (of_option (offer_letter_path r)))
           then ret (reply 404 false (Some "Offer letter not found") no_payload)
           else
             let* there := existsSync (text_of (of_option (offer_letter_path r))) in
             if negb there
             then ret (reply 404 false (Some "Offer letter file not found on server") no_payload)
             else ret (reply 200 true None (offer (offer_letter_path r)))
       end)
    (fun _ => ret (reply 500 false (Some "Failed to fetch offer letter") no_payload)).

Definition get_offer_letter (req : retrieval) (w : world) : outcome :=
  run (download_offer_letter req) w.

(** [GET /api/applications/:id], the id read through [parseInt]. *)
Definition fetch_application (id : option Z) : M response :=
  try_catch
    (match id with
     | None => ret (reply 400 false (Some "Invalid application ID") no_payload)
     | Some i =>
         let* result := query_select_by_id i in
         match result with
         | [] => ret (reply 404 false (Some "Application not found") no_payload)
         | r :: _ => ret (reply 200 true None (row r))
         end
     end)
    (fun _ => ret (reply 500 false (Some "Failed to fetch application") no_payload)).

Definition get_applications_id (id : option Z) (w : world) : outcome :=
  run (fetch_application id) w.

(** [GET /api/documents/:filename]: a plain read of the upload directory,
    with no look at the table. *)
Definition get_documents (name : string) (w : world) : download :=
  match uploads w !! name with
  | Some c => file_sent name c
  | None => not_sent (reply 404 false (Some "File not found") no_payload)
  end.

(** The handler of [POST /api/applications] with the pool's answer to the
    [INSERT] left open: [ins] is what [await pool.query(insertQuery, values)]
    does, in any database.  With [query_insert] for [ins] this is [submit]. *)
Definition submit_on (ins : (Z -> application) -> M application)
    (e : env) (req : submission) : M response :=
  try_catch
    (match List.find (fun f => negb (truthy (field (body req) f))) requiredFields with
     | Some f => ret (reply 400 false (Some ("Missing field: " +:+ f)) no_payload)
     | None =>
         let* fs := match files req with
                    | Some fs => ret fs
                    | None => throw (type_error "sscDoc")
                    end in
         if negb (present (file_of "sscDoc" fs))
            || negb (present (file_of "intermediateDoc" fs))
            || negb (present (file_of "graduationDoc" fs))
         then ret (reply 400 false (Some "Missing required documents") no_payload)
         else
           let referenceId := generateReferenceId e in
           let* a := ins (new_application referenceId req fs) in
           ret (reply 201 true None (reference (reference_id a)))
     end)
    (fun err => ret (reply 500 false (Some (submit_error err)) no_payload)).

Definition post_applications_on (ins : (Z -> application) -> M application)
    (e : env) (req : submission) (w : world) : outcome :=
  run (submit_on ins e req) (store_files (staged req) w).

End Root.

(** ** [Backend/server.js] *)

Module Backend.

Definition requiredFields : list string :=
  [ "full_name"; "email"; "mobile_number"; "department"; "job_role" ].

(** [`REF${Date.now()}${Math.floor(Math.random() * 1000)}`] *)
Definition reference_id_of (e : env) : string :=
  "REF" +:+ pretty (now e) +:+ pretty (draws e 0 mod 1000).

Definition new_application (ref : string) (req : submission)
    (fs : list (string * upfile)) (i : Z) : application :=
  {| app_id := i;
     reference_id := ref;
     full_name := text_of (field (body req) "full_name");
     email := text_of (field (body req) "email");
     mobile_number := text_of (field (body req) "mobile_number");
     department := text_of (field (body req) "department");
     job_role := text_of (field (body req) "job_role");
     status := "Pending";
     ssc_doc_path := filename <$> file_of "sscDoc" fs;
     intermediate_doc_path := filename <$> file_of "intermediateDoc" fs;
     graduation_doc_path := filename <$> file_of "graduationDoc" fs;
     additional_files_path := filename <$> file_of "additionalFiles" fs;
     offer_letter_path := None |}.

(** The handler of [POST /api/applications], after [upload.fields]. *)
Definition submit (e : env) (req : submission) : M response :=
  try_catch
    (let missingFields :=
       List.filter (fun f => negb (truthy (field (body req) f))) requiredFields in
     if (0 <? length missingFields)%nat
     then ret (reply 400 false (Some "Missing required fields") (missing missingFields))
     else
       let ref := reference_id_of e in
       let* fs := match files req with
                  | Some fs => ret fs
                  | None => throw (type_error "sscDoc")
                  end in
       let* result := query_insert (new_application ref req fs) in
       ret (reply 201 true (Some "Application submitted successfully")
              (reference (reference_id result))))
    (fun error =>
       ret {| code := 500; success := false;
              message := Some "Internal server error";
              data := no_payload;
              details := if development e then Some (err_message error) else None |}).

Definition post_applications (e : env) (req : submission) (w : world) : outcome :=
  run (submit e req) (store_files (staged req) w).

(** [PUT /api/applications/:id] *)
Definition put_application (req : status_request) : M response :=
  try_catch
    (if negb (includes_value statuses (put_status req))
     then ret (reply 400 false (Some "Invalid status value") no_payload)
     else
       let* result := query_update_status (text_of (put_status req)) (put_id req) in
       match result with
       | [] => ret (reply 404 false (Some "Application not found") no_payload)
       | r :: _ => ret (reply 200 true (Some "Status updated successfully") (row r))
       end)
    (fun _ => ret (reply 500 false (Some "Failed to update status") no_payload)).

Definition put_applications_id (req : status_request) (w : world) : outcome :=
  run (put_application req) w.

(** The handler of [POST /api/applications/:id/offer-letter], after
    [upload.single]. *)
Definition upload_offer_letter (req : offer_request) : M response :=
  try_catch
    (match offer_file req with
     | None => ret (reply 400 false (Some "No file uploaded") no_payload)
     | Some file =>
         let offerLetterPath := filename file in
         let* result := query_update_offer offerLetterPath (offer_id req) in
         match result with
         | [] =>
             unlinkSync (filename file) ;;
             ret (reply 404 false (Some "Application not found") no_payload)
         | _ :: _ =>
             ret (reply 200 true (Some "Offer letter uploaded successfully")
                    (file_path ("/Uploads/" +:+ offerLetterPath)))
         end
     end)
    (fun _ =>
       match offer_file req with
       | Some file => unlinkSync (filename file)
       | None => ret tt
       end ;;
       ret (reply 500 false (Some "Failed to upload offer letter") no_payload)).

Definition post_offer_letter (req : offer_request) (w : world) : outcome :=
  run (upload_offer_letter req)
      (store_files (match offer_file req with Some f => [f] | None => [] end) w).

Definition allowedOrigins : list string :=
  [ "http://16.171.226.0:8275"; "http://16.171.226.0:8276";
    "http://16.171.226.0:8277"; "http://16.171.226.0:3079";
    "http://localhost:8275"; "http://localhost:8276"; "http://localhost:8277";
    "http://127.0.0.1:5500"; "http://127.0.0.1:5502"; "null" ].

(** The [origin] option of [cors]: [inr tt] is [callback(null, true)]. *)
Definition origin (o : option string) : thrown + unit :=
  if negb (truthy (of_option o)) || existsb (String.eqb (text_of (of_option o))) allowedOrigins
  then inr tt
  else inl (Plain_error "Not allowed by CORS").

(** [/pdf|jpeg|jpg|png/.test] *)
Definition filetypes (s : string) : bool :=
  includes "pdf" s || includes "jpeg" s || includes "jpg" s || includes "png" s.

(** [fileFilter], given the media type of the file and [ext], what
    [path.extname] returns for its original name. *)
Definition fileFilter (mimetype ext : string) : thrown + unit :=
  if filetypes mimetype && filetypes (toLowerCase ext)
  then inr tt
  else inl (Plain_error "Only PDF, JPEG, JPG, and PNG files are allowed").

(** The error-handling middleware.  The [error] member of its answer is
    the [message] of the response, the [message] member its [details]. *)
Definition error_middleware (e : env) (err : thrown) : response :=
  match err with
  | Multer_error msg =>
      {| code := 400; success := false; message := Some "File upload error";
         data := no_payload; details := Some msg |}
  | Plain_error msg =>
      if String.eqb msg "Not allowed by CORS"
      then {| code := 403; success := false; message := Some "CORS policy violation";
              data := no_payload;
              details := Some "Request not allowed from this origin" |}
      else {| code := 500; success := false; message := Some "Internal server error";
              data := no_payload;
              details := if development e then Some msg else None |}
  end.

(** The handler of [POST /api/applications] with the pool's answer to the
    [INSERT] left open, as [Root.submit_on]. *)
Definition submit_on (ins : (Z -> application) -> M application)
    (e : env) (req : submission) : M response :=
  try_catch
    (let missingFields :=
       List.filter (fun f => negb (truthy (field (body req) f))) requiredFields in
     if (0 <? length missingFields)%nat
     then ret (reply 400 false (Some "Missing required fields") (missing missingFields))
     else
       let ref := reference_id_of e in
       let* fs := match files req with
                  | Some fs => ret fs
                  | None => throw (type_error "sscDoc")
                  end in
       let* result := ins (new_application ref req fs) in
       ret (reply 201 true (Some "Application submitted successfully")
              (reference (reference_id result))))
    (fun error =>
       ret {| code := 500; success := false;
              message := Some "Internal server error";
              data := no_payload;
              details := if development e then Some (err_message error) else None |}).

Definition post_applications_on (ins : (Z -> application) -> M application)
    (e : env) (req : submission) (w : world) : outcome :=
  run (submit_on ins e req) (store_files (staged req) w).

End Backend.

(** ** Vocabulary of the statements *)

(** The primary key: no two rows share an id. *)
Definition ids_unique (w : world) : Prop := NoDup (map app_id (rows (db w))).

(** The keys of the table are in order: ids are distinct and below the
    sequence, reference ids are distinct. *)
Definition well_keyed (w : world) : Prop :=
  NoDup (map app_id (rows (db w)))
  /\ NoDup (map reference_id (rows (db w)))
  /\ (forall r, In r (rows (db w)) -> (app_id r < next_id (db w))%Z).

(** A computation keeps a property of the world, whether it returns or
    throws. *)
Definition preserves {A} (P : world -> Prop) (m : M A) : Prop :=
  forall w, P w -> P (snd (m w)).

(** The status of the records with a terminal status does not go back to
    'Pending' under a status update: the property the specification asks
    for, at one request in one world. *)
Definition stays_out_of_pending (put : status_request -> world -> outcome)
    (req : status_request) (w : world) : Prop :=
  forall a, In a (rows (db w)) ->
    status a = "Approved" \/ status a = "Rejected" ->
    forall a', In a' (rows (db (snd (put req w)))) ->
      app_id a' = app_id a -> status a' <> "Pending".

(** The condition of the [SELECT] of the retrieval. *)
Definition matches (ref mail : string) (r : application) : bool :=
  String.eqb (reference_id r) ref && String.eqb (email r) mail
  && String.eqb (status r) "Approved".

Definition not_found (m : string) : response := reply 404 false (Some m) no_payload.

(** The answer of the retrieval when both credentials are supplied, read
    off the rows the [SELECT] returns. *)
Definition retrieved (w : world) (ref mail : string) : response :=
  match List.filter (matches ref mail) (rows (db w)) with
  | [] => not_found "Application not found or not approved"
  | r :: _ =>
      match offer_letter_path r with
      | None => not_found "Offer letter not found"
      | Some p =>
          if String.eqb p "" then not_found "Offer letter not found"
          else if bool_decide (is_Some (uploads w !! p))
               then reply 200 true None (offer (Some p))
               else not_found "Offer letter file not found on server"
      end
  end.

(** A submission passes the validation of [Root]: every required field is
    truthy and the three required documents are there. *)
Definition complete (req : submission) (fs : list (string * upfile)) : Prop :=
  files req = Some fs
  /\ (forall f, In f Root.requiredFields -> truthy (field (body req) f) = true)
  /\ present (file_of "sscDoc" fs) = true
  /\ present (file_of "intermediateDoc" fs) = true
  /\ present (file_of "graduationDoc" fs) = true.

(** The reference ids of the [INSERT] statements sent so far. *)
Definition attempts (w : world) : list string :=
  omap (fun q => match q with Insert ref => Some ref | _ => None end) (queries w).

Definition required_documents : list string :=
  [ "sscDoc"; "intermediateDoc"; "graduationDoc" ].

Definition missing_documents (req : submission) : list string :=
  List.filter (fun d => negb (present (file_of d (default [] (files req)))))
    required_documents.

(** The response names a document: its field name occurs in the message or
    in the list the response carries. *)
Definition names (r : response) (doc : string) : Prop :=
  (exists m, message r = Some m /\ includes doc m = true)
  \/ (exists l, data r = missing l /\ In doc l).

(** What the specification asks of a submission that lacks a required
    document, at one request in one world. *)
Definition rejects_naming_documents (post : env -> submission -> world -> outcome)
    (e : env) (req : submission) (w : world) : Prop :=
  missing_documents req <> [] ->
  exists r, fst (post e req w) = Some r
    /\ code r = 400
    /\ (forall d, In d (missing_documents req) -> names r d)
    /\ uploads (snd (post e req w)) = uploads w
    /\ rows (db (snd (post e req w))) = rows (db w).

(** The columns of a row that are written when it is inserted and by no
    statement after that: all but [status] and [offer_letter_path]. *)
Definition identity (r : application) :=
  (app_id r, reference_id r, full_name r, email r, mobile_number r,
   department r, job_role r,
   ssc_doc_path r, intermediate_doc_path r, graduation_doc_path r,
   additional_files_path r).

(** The rows of [w] still begin with the rows whose identities are [l0]:
    later rows may have been added, none removed, reordered or rewritten in
    an identity column. *)
Definition extends (l0 : list (Z * string * string * string * string * string * string
                               * option string * option string * option string
                               * option string))
    (w : world) : Prop :=
  exists ext, map identity (rows (db w)) = l0 ++ ext.

(** The document pointers of a row. *)
Definition document_pointers (r : application) : list (option string) :=
  [ ssc_doc_path r; intermediate_doc_path r; graduation_doc_path r;
    additional_files_path r ].

(** The ids PostgreSQL reads in an [INTEGER] column. *)
Definition int4 (i : Z) : Prop := (-2147483648 <= i <= 2147483647)%Z.

(** What any database does with the [INSERT ... RETURNING] of the intake,
    whatever its reasons to refuse a row (a uniqueness constraint, the width
    or the type of a column): one statement is sent, with the reference id
    of the row; the upload directory is not touched; a refused insert leaves
    the rows as they were; an accepted one appends one row and returns it.
    Nothing is assumed on the values of the row the database stores. *)
Definition insert_statement (ins : (Z -> application) -> M application) : Prop :=
  forall mk w,
    uploads (snd (ins mk w)) = uploads w
    /\ (exists i, queries (snd (ins mk w)) = queries w ++ [Insert (reference_id (mk i))])
    /\ match fst (ins mk w) with
       | inl _ => rows (db (snd (ins mk w))) = rows (db w)
       | inr a => rows (db (snd (ins mk w))) = rows (db w) ++ [a]
       end.

Definition value_too_long (n : nat) : exn :=
  {| constraint := None;
     err_message := "value too long for type character varying(" +:+ pretty n +:+ ")" |}.

(** An insert that first refuses the rows, for the width or the type of a
    column, for which [refusal] gives an error, and then checks the
    uniqueness constraints as [query_insert] does. *)
Definition checked_insert (refusal : application -> option exn)
    (mk : Z -> application) : M application :=
  fun w =>
    match refusal (mk (next_id (db w))) with
    | Some err =>
        (inl err,
         with_db (sent w (Insert (reference_id (mk (next_id (db w)))))) (bump (db w)))
    | None => query_insert mk w
    end.

(** [mobile_number VARCHAR(10)], in the table of [initializeDatabase]. *)
Definition mobile_number_width (a : application) : option exn :=
  if (String.length (mobile_number a) <=? 10)%nat then None
  else Some (value_too_long 10).

(** The field names of the uploads of the two servers. *)
Definition upload_fields : list string :=
  [ "sscDoc"; "intermediateDoc"; "graduationDoc"; "additional_files";
    "additionalFiles"; "offerLetter" ].

Definition is_digit (c : ascii) : bool :=
  (48 <=? nat_of_ascii c)%nat && (nat_of_ascii c <=? 57)%nat.

Fixpoint all_digits (s : string) : bool :=
  match s with
  | EmptyString => true
  | String c rest => is_digit c && all_digits rest
  end.

(** A string that does not go on with a digit. *)
Definition no_digit_ahead (s : string) : bool :=
  match s with
  | EmptyString => true
  | String c _ => negb (is_digit c)
  end.

(** What [path.extname] returns: nothing, or a dot and what follows it. *)
Definition extension (ext : string) : Prop :=
  ext = "" \/ exists rest, ext = "." +:+ rest.

(** ** Sample worlds and requests *)

(** A pending application with its three documents, the same application
    approved, and approved with a first offer letter. *)
Definition alice : application :=
  {| app_id := 1; reference_id := "AAAAAAAAAAAAAAA"; full_name := "A";
     email := "a@x.com"; mobile_number := "1111111111";
     department := "Eng"; job_role := "Dev"; status := "Pending";
     ssc_doc_path := Some "sscDoc-1-1.pdf";
     intermediate_doc_path := Some "intermediateDoc-1-2.pdf";
     graduation_doc_path := Some "graduationDoc-1-3.pdf";
     additional_files_path := None; offer_letter_path := None |}.

Definition approved (a : application) : application := set_status "Approved" a.

Definition hired : application :=
  set_offer_letter_path "offerLetter-5-5.pdf" (approved alice).

Definition alice_files : gmap string string :=
  <["sscDoc-1-1.pdf" := "ssc"]>
    (<["intermediateDoc-1-2.pdf" := "inter"]>
       (<["graduationDoc-1-3.pdf" := "grad"]> ∅)).

Definition hired_files : gmap string string :=
  <["offerLetter-5-5.pdf" := "first offer"]> alice_files.

(** A world with the given rows and files; [uniq] says whether the table
    has the [UNIQUE] constraints on [email] and [mobile_number]. *)
Definition world_of (l : list application) (u : gmap string string) (uniq : bool) : world :=
  {| db := {| rows := l; next_id := 2; email_unique := uniq; mobile_unique := uniq |};
     uploads := u; queries := [] |}.

Definition pdf (name text : string) : upfile := {| filename := name; content := text |}.

(** A form with every field the stricter server requires, and the three
    required documents. *)
Definition full_form (mail mobile : string) : gmap string string :=
  list_to_map
    [ ("full_name", "B"); ("email", mail); ("mobile_number", mobile);
      ("department", "Eng"); ("job_role", "Dev"); ("dob", "2000-01-01");
      ("father_name", "F"); ("permanent_address", "Street 1");
      ("expected_salary", "1000"); ("employment_type", "Full-time");
      ("branch_location", "HQ"); ("ssc_year", "2015"); ("ssc_percentage", "80");
      ("intermediate_year", "2017"); ("intermediate_percentage", "80");
      ("college_name", "C"); ("register_number", "R1");
      ("graduation_year", "2021"); ("graduation_percentage", "80");
      ("experience_status", "No") ].

Definition three_documents : list (string * upfile) :=
  [ ("sscDoc", pdf "sscDoc-2-1.pdf" "ssc of B");
    ("intermediateDoc", pdf "intermediateDoc-2-2.pdf" "inter of B");
    ("graduationDoc", pdf "graduationDoc-2-3.pdf" "grad of B") ].

Definition ssc_only : list (string * upfile) :=
  [ ("sscDoc", pdf "sscDoc-2-1.pdf" "ssc of B") ].

(** An environment whose first fifteen draws spell the reference id of
    [alice] and whose later draws spell another one, and an environment that
    never spells it. *)
Definition colliding : env :=
  {| now := 1700000000000;
     draws := fun k => if (k <? 15)%nat then 0 else 1;
     development := false |}.

Definition fresh : env :=
  {| now := 1700000000000; draws := fun _ => 1; development := false |}.

(** An application filed through [Backend] at the time of [fresh], with
    the same draw. *)
Definition bob : application :=
  {| app_id := 1; reference_id := "REF17000000000001"; full_name := "B";
     email := "b@x.com"; mobile_number := "2222222222";
     department := "Eng"; job_role := "Dev"; status := "Pending";
     ssc_doc_path := None; intermediate_doc_path := None;
     graduation_doc_path := None; additional_files_path := None;
     offer_letter_path := None |}.

(** The five fields [Backend] requires, and nothing else. *)
Definition short_form (mail mobile : string) : gmap string string :=
  list_to_map
    [ ("full_name", "C"); ("email", mail); ("mobile_number", mobile);
      ("department", "Eng"); ("job_role", "Dev") ].

(** * Properties *)

(** ** Running computations *)

Ltac world_norm :=
  cbn [db uploads queries sent store_file store_files fold_left
       with_uploads with_db fst snd] in *.

Lemma store_files_db fs w : db (store_files fs w) = db w.
Proof. revert w. induction fs as [|f fs IH]; intros w; simpl; [done|]. by rewrite IH. Qed.

Lemma store_files_queries fs w : queries (store_files fs w) = queries w.
Proof. revert w. induction fs as [|f fs IH]; intros w; simpl; [done|]. by rewrite IH. Qed.

(** A status value is refused exactly when it is none of the three strings. *)
Lemma includes_value_statuses v :
  includes_value statuses v = false <->
  v <> JStr "Pending" /\ v <> JStr "Approved" /\ v <> JStr "Rejected".
Proof.
  unfold statuses. destruct v as [| |b|n|s|]; simpl;
    try (split; [intros _; repeat split; discriminate|done]).
  destruct (String.eqb_spec s "Pending") as [->|H1]; simpl.
  { split; [discriminate|]. intros (H & _ & _). by destruct H. }
  destruct (String.eqb_spec s "Approved") as [->|H2]; simpl.
  { split; [discriminate|]. intros (_ & H & _). by destruct H. }
  destruct (String.eqb_spec s "Rejected") as [->|H3]; simpl.
  { split; [discriminate|]. intros (_ & _ & H). by destruct H. }
  split; [|done]. intros _. repeat split; congruence.
Qed.

Lemma includes_value_In st : In st statuses -> includes_value statuses (JStr st) = true.
Proof.
  intros H. unfold includes_value. apply existsb_exists.
  exists st. split; [done|]. apply String.eqb_refl.
Qed.

(** ** Selecting and updating rows by id *)

Lemma where_id_In i l a : In a (where_id i l) <-> In a l /\ app_id a = i.
Proof. unfold where_id. rewrite filter_In, Z.eqb_eq. tauto. Qed.

Lemma where_id_nil i l : where_id i l = [] <-> forall a, In a l -> app_id a <> i.
Proof.
  split.
  - intros H a Ha E. assert (Hin : In a (where_id i l)) by (apply where_id_In; auto).
    rewrite H in Hin. destruct Hin.
  - intros H. destruct (where_id i l) as [|a t] eqn:E; [done|].
    assert (Hin : In a (where_id i l)) by (rewrite E; left; done).
    apply where_id_In in Hin as [Ha Hi]. by destruct (H a Ha).
Qed.

Lemma where_id_update i f l :
  (forall r, app_id (f r) = app_id r) ->
  where_id i (update_where_id i f l) = map f (where_id i l).
Proof.
  intros Hf. induction l as [|r l IH]; simpl; [done|].
  destruct (app_id r =? i)%Z eqn:E; simpl.
  - rewrite Hf, E. simpl. by rewrite IH.
  - by rewrite E.
Qed.

Lemma update_where_id_In i f l a' :
  In a' (update_where_id i f l) ->
  exists r, In r l /\ a' = if (app_id r =? i)%Z then f r else r.
Proof.
  unfold update_where_id. rewrite in_map_iff. intros (r & E & Hr). eauto.
Qed.

Lemma set_status_id st r : app_id (set_status st r) = app_id r.
Proof. done. Qed.

Lemma set_offer_letter_path_id p r : app_id (set_offer_letter_path p r) = app_id r.
Proof. done. Qed.

(** ** The keys of the table are kept *)

Section Preservation.

Variable P : world -> Prop.

Lemma preserves_ret {A} (a : A) : preserves P (ret a).
Proof. intros w Hw. exact Hw. Qed.

Lemma preserves_throw {A} (e : exn) : preserves P (@throw A e).
Proof. intros w Hw. exact Hw. Qed.

Lemma preserves_bind {A B} (m : M A) (k : A -> M B) :
  preserves P m -> (forall a, preserves P (k a)) -> preserves P (bind m k).
Proof.
  intros Hm Hk w Hw. unfold bind. specialize (Hm w Hw).
  destruct (m w) as [[e|a] w']; [exact Hm|]. by apply Hk.
Qed.

Lemma preserves_try_catch {A} (body : M A) (handler : exn -> M A) :
  preserves P body -> (forall e, preserves P (handler e)) ->
  preserves P (try_catch body handler).
Proof.
  intros Hb Hh w Hw. unfold try_catch. specialize (Hb w Hw).
  destruct (body w) as [[e|a] w']; [by apply Hh|exact Hb].
Qed.

Lemma preserves_run (h : M response) (w : world) :
  preserves P h -> P w -> P (snd (run h w)).
Proof.
  intros Hh Hw. unfold run. specialize (Hh w Hw).
  by destruct (h w) as [[e|r] w'].
Qed.

End Preservation.

Lemma well_keyed_same_db (w w' : world) : db w' = db w -> well_keyed w -> well_keyed w'.
Proof. unfold well_keyed. by intros ->. Qed.

Lemma well_keyed_store_files fs w : well_keyed w -> well_keyed (store_files fs w).
Proof. apply well_keyed_same_db, store_files_db. Qed.

Lemma keys_existsSync name : preserves well_keyed (existsSync name).
Proof. intros w Hw. exact Hw. Qed.

Lemma keys_unlinkSync name : preserves well_keyed (unlinkSync name).
Proof. intros w Hw. unfold unlinkSync. by destruct (uploads w !! name). Qed.

Lemma keys_select_by_id i : preserves well_keyed (query_select_by_id i).
Proof. intros w Hw. exact Hw. Qed.

Lemma keys_select_offer ref mail : preserves well_keyed (query_select_offer ref mail).
Proof. intros w Hw. exact Hw. Qed.

Lemma keys_update q i f :
  (forall r, app_id (f r) = app_id r) ->
  (forall r, reference_id (f r) = reference_id r) ->
  preserves well_keyed (query_update q i f).
Proof.
  intros Hid Href w (H1 & H2 & H3). unfold query_update.
  destruct i as [n|]; [|by repeat split].
  assert (Eid : map app_id (update_where_id n f (rows (db w))) = map app_id (rows (db w))).
  { unfold update_where_id. rewrite map_map. apply map_ext.
    intros r. by destruct (app_id r =? n)%Z. }
  assert (Eref : map reference_id (update_where_id n f (rows (db w)))
                 = map reference_id (rows (db w))).
  { unfold update_where_id. rewrite map_map. apply map_ext.
    intros r. by destruct (app_id r =? n)%Z. }
  unfold well_keyed. world_norm. cbn [with_rows rows next_id].
  rewrite Eid, Eref. repeat split; [done..|].
  intros r Hr. apply update_where_id_In in Hr as (r0 & Hr0 & ->).
  destruct (app_id r0 =? n)%Z; rewrite ?Hid; by apply H3.
Qed.

Lemma keys_insert mk :
  (forall i, app_id (mk i) = i) -> preserves well_keyed (query_insert mk).
Proof.
  intros Hmk w (H1 & H2 & H3). unfold query_insert, insert, violated.
  destruct (existsb _ (rows (db w))) eqn:Eref.
  { repeat split; [done..|]. intros r Hr. specialize (H3 r Hr). simpl. lia. }
  destruct (email_unique (db w) && _);
    [repeat split; [done..|]; intros r Hr; specialize (H3 r Hr); simpl; lia|].
  destruct (mobile_unique (db w) && _);
    [repeat split; [done..|]; intros r Hr; specialize (H3 r Hr); simpl; lia|].
  unfold well_keyed. world_norm. cbn [bump with_rows rows next_id].
  rewrite !map_app. cbn [map]. rewrite Hmk. repeat split.
  - apply NoDup_app. split; [done|]. split; [|apply NoDup_singleton].
    intros i Hi Hin. apply list_elem_of_In in Hi. apply in_map_iff in Hi as (r & <- & Hr).
    apply list_elem_of_In in Hin as [E|[]]. specialize (H3 r Hr). lia.
  - apply NoDup_app. split; [done|]. split; [|apply NoDup_singleton].
    intros x Hx Hin. apply list_elem_of_In in Hx. apply in_map_iff in Hx as (r & <- & Hr).
    apply list_elem_of_In in Hin as [E|[]].
    assert (Hex : existsb (fun r0 => (reference_id r0 =? reference_id (mk (next_id (db w))))%string)
                    (rows (db w)) = true); [|congruence].
    apply existsb_exists. exists r. split; [done|]. by apply String.eqb_eq.
  - intros r Hr. apply in_app_iff in Hr as [Hr|[<-|[]]].
    + specialize (H3 r Hr). lia.
    + rewrite Hmk. lia.
Qed.

(** One step of a proof that a handler keeps the keys: a rule of the monad,
    a primitive, or a case distinction of the handler. *)
Ltac keys_step :=
  first
    [ apply preserves_ret
    | apply preserves_throw
    | apply keys_existsSync
    | apply keys_unlinkSync
    | apply keys_select_by_id
    | apply keys_select_offer
    | apply keys_update; [intros ?; reflexivity | intros ?; reflexivity]
    | apply keys_insert; intros ?; reflexivity
    | apply preserves_try_catch; [|intros ?]
    | apply preserves_bind; [|intros ?]
    | match goal with
      | |- preserves _ (match ?x with _ => _ end) => destruct x
      | |- preserves _ (if ?b then _ else _) => destruct b
      end ].

(** X22. Every route of both servers keeps the keys of the table in order,
    so that the uniqueness of ids and of reference ids may be assumed of any
    world the servers have reached. *)
Theorem routes_keep_keys (w : world) :
  well_keyed w ->
  (forall e req, well_keyed (snd (Root.post_applications e req w)))
  /\ (forall req, well_keyed (snd (Root.put_applications_id req w)))
  /\ (forall req, well_keyed (snd (Root.post_offer_letter req w)))
  /\ (forall req, well_keyed (snd (Root.get_offer_letter req w)))
  /\ (forall e req, well_keyed (snd (Backend.post_applications e req w)))
  /\ (forall req, well_keyed (snd (Backend.put_applications_id req w)))
  /\ (forall req, well_keyed (snd (Backend.post_offer_letter req w))).
Proof.
  intros Hw. repeat apply conj; intros.
  - unfold Root.post_applications.
    apply preserves_run; [|by apply well_keyed_store_files].
    unfold Root.submit. repeat keys_step.
  - unfold Root.put_applications_id. apply preserves_run; [|done].
    unfold Root.put_application, query_update_status. repeat keys_step.
  - unfold Root.post_offer_letter.
    apply preserves_run; [|by apply well_keyed_store_files].
    unfold Root.upload_offer_letter, Root.delete_previous, query_update_offer.
    repeat keys_step.
  - unfold Root.get_offer_letter. apply preserves_run; [|done].
    unfold Root.download_offer_letter. repeat keys_step.
  - unfold Backend.post_applications.
    apply preserves_run; [|by apply well_keyed_store_files].
    unfold Backend.submit. repeat keys_step.
  - unfold Backend.put_applications_id. apply preserves_run; [|done].
    unfold Backend.put_application, query_update_status. repeat keys_step.
  - unfold Backend.post_offer_letter.
    apply preserves_run; [|by apply well_keyed_store_files].
    unfold Backend.upload_offer_letter, query_update_offer. repeat keys_step.
Qed.

Lemma well_keyed_ids_unique w : well_keyed w -> ids_unique w.
Proof. by intros (H & _). Qed.

(** ** Status updates *)

(** C9. A status update whose target value is none of 'Pending',
    'Approved', 'Rejected' is answered with HTTP 400 by both servers, and
    the world after it is the world before it: nothing was written, and the
    stored status of every record is what it was. *)
Theorem invalid_status_rejected (req : status_request) (w : world) :
  put_status req <> JStr "Pending" ->
  put_status req <> JStr "Approved" ->
  put_status req <> JStr "Rejected" ->
  (exists r, Root.put_applications_id req w = (Some r, w)
             /\ code r = 400 /\ success r = false)
  /\ (exists r, Backend.put_applications_id req w = (Some r, w)
                /\ code r = 400 /\ success r = false)
  /\ map status (rows (db (snd (Root.put_applications_id req w))))
     = map status (rows (db w))
  /\ map status (rows (db (snd (Backend.put_applications_id req w))))
     = map status (rows (db w)).
Proof.
  intros H1 H2 H3.
  assert (Hv : includes_value statuses (put_status req) = false)
    by (apply includes_value_statuses; auto).
  unfold Root.put_applications_id, Backend.put_applications_id, run,
    Root.put_application, Backend.put_application, try_catch.
  rewrite Hv. simpl.
  destruct (put_id req) as [i|]; simpl; rewrite ?Hv; simpl;
    repeat split; eauto.
Qed.

(** The scenario of the specification: [PUT status="Cancelled"]. *)
Lemma invalid_status_rejected_witness :
  let req := {| put_id := Some 1%Z; put_status := JStr "Cancelled" |} in
  let w := world_of [alice] alice_files true in
  (exists r, Root.put_applications_id req w = (Some r, w)
             /\ code r = 400 /\ success r = false)
  /\ (exists r, Backend.put_applications_id req w = (Some r, w)
                /\ code r = 400 /\ success r = false)
  /\ map status (rows (db (snd (Root.put_applications_id req w)))) = ["Pending"]
  /\ map status (rows (db (snd (Backend.put_applications_id req w)))) = ["Pending"].
Proof.
  intros req w.
  apply (invalid_status_rejected req w); simpl; discriminate.
Defined.

(** C10. The status value is checked before the application is looked up:
    a request with an invalid status value is answered with HTTP 400, not
    404, in every world, so also when no application has the given id, and
    the servers send no statement to the database for it. *)
Theorem status_checked_before_lookup (req : status_request) (w : world) :
  put_status req <> JStr "Pending" ->
  put_status req <> JStr "Approved" ->
  put_status req <> JStr "Rejected" ->
  (exists r w', Root.put_applications_id req w = (Some r, w')
                /\ code r = 400 /\ code r <> 404
                /\ queries w' = queries w /\ db w' = db w)
  /\ (exists r w', Backend.put_applications_id req w = (Some r, w')
                   /\ code r = 400 /\ code r <> 404
                   /\ message r = Some "Invalid status value"
                   /\ queries w' = queries w /\ db w' = db w).
Proof.
  intros H1 H2 H3.
  assert (Hv : includes_value statuses (put_status req) = false)
    by (apply includes_value_statuses; auto).
  unfold Root.put_applications_id, Backend.put_applications_id, run,
    Root.put_application, Backend.put_application, try_catch.
  rewrite Hv. simpl. split.
  - destruct (put_id req) as [i|]; simpl; rewrite ?Hv; simpl;
      eexists _, _; (split; [reflexivity|]); repeat split; simpl; lia.
  - eexists _, _. split; [reflexivity|]. repeat split; simpl; lia.
Qed.

(** An empty table, an id that no application has, and an invalid status. *)
Lemma status_checked_before_lookup_witness :
  let req := {| put_id := Some 7%Z; put_status := JStr "Cancelled" |} in
  let w := world_of [] ∅ true in
  where_id 7 (rows (db w)) = []
  /\ (exists r w', Root.put_applications_id req w = (Some r, w')
                   /\ code r = 400 /\ code r <> 404
                   /\ queries w' = queries w /\ db w' = db w)
  /\ (exists r w', Backend.put_applications_id req w = (Some r, w')
                   /\ code r = 400 /\ code r <> 404
                   /\ message r = Some "Invalid status value"
                   /\ queries w' = queries w /\ db w' = db w).
Proof.
  intros req w. split; [reflexivity|].
  apply (status_checked_before_lookup req w); simpl; discriminate.
Defined.

(** With a valid status value the lookup does happen: an id that no
    application has is answered with 404, after one statement. *)
Lemma valid_status_unknown_id (i : Z) (st : string) (w : world) :
  In st statuses ->
  where_id i (rows (db w)) = [] ->
  (exists r w', Root.put_applications_id {| put_id := Some i; put_status := JStr st |} w
                = (Some r, w')
                /\ code r = 404 /\ queries w' = queries w ++ [Update_status st (Some i)])
  /\ (exists r w', Backend.put_applications_id {| put_id := Some i; put_status := JStr st |} w
                   = (Some r, w')
                   /\ code r = 404 /\ queries w' = queries w ++ [Update_status st (Some i)]).
Proof.
  intros Hst Hnone.
  pose proof (includes_value_In st Hst) as Hv.
  unfold Root.put_applications_id, Backend.put_applications_id, run,
    Root.put_application, Backend.put_application, try_catch, bind,
    query_update_status, query_update.
  cbn [put_status put_id]. rewrite Hv. simpl.
  rewrite where_id_update by apply set_status_id. rewrite Hnone. simpl.
  split; eexists _, _; (split; [reflexivity|]); split; done.
Qed.

(** C3, as stated, fails: an approved application is set back to 'Pending'
    by [PUT /api/applications/1] with [status = "Pending"], on both
    servers. *)
Lemma approved_goes_back_to_pending :
  let req := {| put_id := Some 1%Z; put_status := JStr "Pending" |} in
  let w := world_of [approved alice] alice_files true in
  ~ stays_out_of_pending Root.put_applications_id req w
  /\ ~ stays_out_of_pending Backend.put_applications_id req w
  /\ fst (Root.put_applications_id req w) = Some (reply 200 true None (id_status 1 "Pending"))
  /\ map status (rows (db (snd (Root.put_applications_id req w)))) = ["Pending"]
  /\ map status (rows (db (snd (Backend.put_applications_id req w)))) = ["Pending"].
Proof.
  intros req w.
  split; [|split; [|repeat split; reflexivity]]; intros H;
    refine (H (approved alice) _ _ alice _ _ _);
    solve [left; reflexivity | reflexivity].
Qed.

(** C3, amended. The status update looks at the target value only: for an
    application that exists and a target among 'Pending', 'Approved',
    'Rejected', whatever the current status, both servers answer 200 and
    every row with that id now has the target status, 'Pending'
    included. *)
Theorem status_update_ignores_current (w : world) (a : application) (st : string) :
  In a (rows (db w)) ->
  In st statuses ->
  let req := {| put_id := Some (app_id a); put_status := JStr st |} in
  forall put, put = Root.put_applications_id \/ put = Backend.put_applications_id ->
    exists r w', put req w = (Some r, w')
      /\ code r = 200 /\ success r = true
      /\ rows (db w') = update_where_id (app_id a) (set_status st) (rows (db w))
      /\ (forall a', In a' (rows (db w')) -> app_id a' = app_id a -> status a' = st)
      /\ (forall a', In a' (rows (db w')) -> app_id a' <> app_id a -> In a' (rows (db w))).
Proof.
  intros Ha Hst req put Hput.
  pose proof (includes_value_In st Hst) as Hv.
  assert (Hsel : exists r t, where_id (app_id a)
                    (update_where_id (app_id a) (set_status st) (rows (db w))) = r :: t).
  { rewrite where_id_update by apply set_status_id.
    destruct (where_id (app_id a) (rows (db w))) as [|r t] eqn:E.
    - exfalso. eapply where_id_nil; eauto.
    - simpl. eauto. }
  destruct Hsel as (r & t & Hsel).
  assert (Hrows : forall a', In a' (update_where_id (app_id a) (set_status st) (rows (db w))) ->
                    (app_id a' = app_id a -> status a' = st)
                    /\ (app_id a' <> app_id a -> In a' (rows (db w)))).
  { intros a' Hin. apply update_where_id_In in Hin as (r0 & Hr0 & ->).
    destruct (app_id r0 =? app_id a)%Z eqn:E.
    - apply Z.eqb_eq in E. split; [done|]. simpl. congruence.
    - apply Z.eqb_neq in E. split; [congruence|done]. }
  destruct Hput as [-> | ->];
    unfold Root.put_applications_id, Backend.put_applications_id, run,
      Root.put_application, Backend.put_application, try_catch, bind,
      query_update_status, query_update;
    subst req; cbn [put_status put_id]; rewrite Hv; simpl;
    rewrite Hsel; simpl;
    eexists _, _; (split; [reflexivity|]); simpl;
    repeat split; try done; intros a' Hin; by apply Hrows.
Qed.

Lemma status_update_ignores_current_witness :
  let w := world_of [approved alice] alice_files true in
  exists r w',
    Root.put_applications_id {| put_id := Some 1%Z; put_status := JStr "Pending" |} w
    = (Some r, w')
    /\ code r = 200 /\ success r = true
    /\ rows (db w') = update_where_id 1 (set_status "Pending") (rows (db w))
    /\ (forall a', In a' (rows (db w')) -> app_id a' = 1%Z -> status a' = "Pending")
    /\ (forall a', In a' (rows (db w')) -> app_id a' <> 1%Z -> In a' (rows (db w))).
Proof.
  intros w.
  apply (status_update_ignores_current w (approved alice) "Pending");
    [left; reflexivity | simpl; tauto | left; reflexivity].
Defined.

(** ** Offer letters *)

Lemma where_id_unique (l : list application) (a : application) :
  NoDup (map app_id l) -> In a l -> where_id (app_id a) l = [a].
Proof.
  induction l as [|r l IH]; simpl; [done|].
  intros Hnd Hin. apply NoDup_cons in Hnd as [Hnotin Hnd]. destruct Hin as [-> | Hin].
  - rewrite Z.eqb_refl. f_equal. apply where_id_nil.
    intros b Hb E. apply Hnotin. rewrite <- E. apply list_elem_of_In, in_map, Hb.
  - destruct (Z.eqb_spec (app_id r) (app_id a)) as [E|_]; [|by apply IH].
    exfalso. apply Hnotin. rewrite E. apply list_elem_of_In, in_map, Hin.
Qed.

Lemma unlinkSync_stored (f : upfile) (w : world) :
  uploads w !! filename f = None ->
  unlinkSync (filename f) (store_file f w) = (inr tt, w).
Proof.
  intros Hfresh. unfold unlinkSync, store_file, with_uploads. simpl.
  rewrite lookup_insert_eq. simpl. rewrite delete_insert_eq.
  rewrite delete_id by done. by destruct w.
Qed.

Lemma unlinkSync_sent (name : string) (w : world) (q : stmt) :
  unlinkSync name (sent w q) =
  (fst (unlinkSync name w), sent (snd (unlinkSync name w)) q).
Proof. unfold unlinkSync, sent. simpl. by destruct (uploads w !! name). Qed.

(** Deleting the previous offer letter never throws and touches the
    directory only. *)
Lemma delete_previous_total (r : application) (w : world) :
  exists w', Root.delete_previous r w = (inr tt, w')
             /\ db w' = db w /\ queries w' = queries w.
Proof.
  unfold Root.delete_previous.
  destruct (offer_letter_path r) as [old|]; [|by exists w].
  destruct (truthy (JStr old)); [|by exists w].
  unfold bind, existsSync, unlinkSync.
  destruct (uploads w !! old) as [c|] eqn:Hold.
  - rewrite bool_decide_true by eauto. rewrite Hold.
    eexists. split; [reflexivity|]. done.
  - rewrite bool_decide_false by (intros [? ?]; done). by exists w.
Qed.

Module RootOffer.

(** X23. On [Root] the issuance succeeds exactly when the application
    exists and is approved. *)
Lemma gate (w : world) (i : option Z) (file : upfile) :
  ids_unique w ->
  exists r w',
    Root.post_offer_letter {| offer_id := i; offer_file := Some file |} w = (Some r, w')
    /\ (code r = 200 <->
        exists a, In a (rows (db w)) /\ i = Some (app_id a) /\ status a = "Approved").
Proof.
  intros Hids. unfold Root.post_offer_letter, run, Root.upload_offer_letter, try_catch.
  cbn [offer_id offer_file store_files fold_left].
  destruct i as [n|]; cbn -[store_file].
  change (db (store_file file w)) with (db w).
  2:{ eexists _, _. split; [reflexivity|]. simpl. split; [discriminate|].
      intros (a & _ & E & _). discriminate. }
  destruct (where_id n (rows (db w))) as [|r t] eqn:Hsel; cbn -[store_file].
  - unfold bind. rewrite unlinkSync_sent.
    assert (Hthere : exists c, uploads (store_file file w) !! filename file = Some c)
      by (exists (content file); apply lookup_insert_eq).
    destruct Hthere as (c & Hc). unfold unlinkSync at 1 2. rewrite Hc. cbn.
    eexists _, _. split; [reflexivity|]. simpl. split; [discriminate|].
    intros (a & Ha & E & _). injection E as ->.
    exfalso. eapply where_id_nil; eauto.
  - assert (Hr : In r (rows (db w)) /\ app_id r = n)
      by (apply where_id_In; rewrite Hsel; left; done).
    destruct Hr as [Hr <-].
    destruct (String.eqb_spec (status r) "Approved") as [Happ|Hnot]; cbn -[store_file].
    + unfold bind.
      destruct (delete_previous_total r
                  (sent (store_file file w) (Select_by_id (app_id r))))
        as (w2 & -> & Hdb & _).
      unfold query_update_offer, query_update. cbn.
      rewrite Hdb, where_id_update by apply set_offer_letter_path_id.
      world_norm. rewrite Hsel. cbn.
      eexists _, _. split; [reflexivity|]. simpl. split; [|done].
      intros _. exists r. auto.
    + unfold bind. rewrite unlinkSync_sent.
      assert (Hc : uploads (store_file file w) !! filename file = Some (content file))
        by apply lookup_insert_eq.
      unfold unlinkSync at 1 2. rewrite Hc. cbn.
      eexists _, _. split; [reflexivity|]. simpl. split; [discriminate|].
      intros (a & Ha & E & Hst). injection E as E.
      assert (Hsel' := where_id_unique _ _ Hids Ha). rewrite <- E, Hsel in Hsel'.
      injection Hsel' as -> _. done.
Qed.

(** X24. On [Root] an application that is not approved gets HTTP 400; the
    file just uploaded is deleted again, and the table and the directory are
    what they were before the request. *)
Lemma refused (w : world) (a : application) (file : upfile) :
  ids_unique w ->
  In a (rows (db w)) ->
  status a <> "Approved" ->
  uploads w !! filename file = None ->
  Root.post_offer_letter {| offer_id := Some (app_id a); offer_file := Some file |} w
  = (Some (reply 400 false
             (Some "Application must be approved to upload an offer letter") no_payload),
     sent w (Select_by_id (app_id a))).
Proof.
  intros Hids Ha Hst Hfresh.
  unfold Root.post_offer_letter, run, Root.upload_offer_letter, try_catch, bind,
    query_select_by_id.
  cbn [offer_id offer_file]. world_norm.
  rewrite (where_id_unique _ _ Hids Ha).
  apply String.eqb_neq in Hst. rewrite Hst. cbn [negb].
  rewrite unlinkSync_sent.
  change (with_uploads w (<[filename file:=content file]> (uploads w)))
    with (store_file file w).
  rewrite (unlinkSync_stored file w Hfresh). reflexivity.
Qed.

(** X25. On [Root] a second offer letter for an approved application
    replaces the first: the old file is deleted, the new one is kept, and
    the pointer names the new one. *)
Lemma reissue (w : world) (a : application) (file : upfile) (old c : string) :
  ids_unique w ->
  In a (rows (db w)) ->
  status a = "Approved" ->
  offer_letter_path a = Some old ->
  old <> "" ->
  uploads w !! old = Some c ->
  uploads w !! filename file = None ->
  exists w',
    Root.post_offer_letter {| offer_id := Some (app_id a); offer_file := Some file |} w
    = (Some (reply 200 true None (id_offer (app_id a) (Some (filename file)))), w')
    /\ uploads w' = delete old (<[filename file := content file]> (uploads w))
    /\ uploads w' !! old = None
    /\ uploads w' !! filename file = Some (content file)
    /\ rows (db w')
       = update_where_id (app_id a) (set_offer_letter_path (filename file)) (rows (db w)).
Proof.
  intros Hids Ha Hst Hold Hne Hfile Hfresh.
  assert (Hdiff : old <> filename file) by congruence.
  unfold Root.post_offer_letter, run, Root.upload_offer_letter, try_catch, bind,
    query_select_by_id.
  cbn [offer_id offer_file]. world_norm.
  rewrite (where_id_unique _ _ Hids Ha).
  rewrite Hst. cbn [String.eqb Ascii.eqb Bool.eqb negb andb].
  unfold Root.delete_previous. rewrite Hold.
  assert (Ht : truthy (JStr old) = true).
  { simpl. apply negb_true_iff, String.eqb_neq, Hne. }
  rewrite Ht. unfold bind, existsSync, unlinkSync. world_norm.
  rewrite lookup_insert_ne by congruence. rewrite Hfile.
  rewrite bool_decide_true by eauto. world_norm.
  rewrite lookup_insert_ne by congruence. rewrite Hfile.
  unfold query_update_offer, query_update, ret. world_norm.
  rewrite where_id_update by apply set_offer_letter_path_id.
  rewrite (where_id_unique _ _ Hids Ha). cbn [map].
  eexists. split; [reflexivity|]. world_norm.
  repeat split.
  - apply lookup_delete_eq.
  - rewrite lookup_delete_ne by done. apply lookup_insert_eq.
Qed.

End RootOffer.

Module BackendOffer.

(** X26. On [Backend] the issuance looks at the id only: for every
    application that exists, whatever its status and whatever offer letter it
    has, the pointer is overwritten and the directory gains the new file,
    nothing being deleted. *)
Lemma no_gate (w : world) (a : application) (file : upfile) :
  In a (rows (db w)) ->
  exists w',
    Backend.post_offer_letter {| offer_id := Some (app_id a); offer_file := Some file |} w
    = (Some (reply 200 true (Some "Offer letter uploaded successfully")
               (file_path ("/Uploads/" +:+ filename file))), w')
    /\ uploads w' = <[filename file := content file]> (uploads w)
    /\ rows (db w')
       = update_where_id (app_id a) (set_offer_letter_path (filename file)) (rows (db w)).
Proof.
  intros Ha.
  unfold Backend.post_offer_letter, run, Backend.upload_offer_letter, try_catch, bind,
    query_update_offer, query_update.
  cbn [offer_id offer_file]. world_norm.
  rewrite where_id_update by apply set_offer_letter_path_id.
  destruct (where_id (app_id a) (rows (db w))) as [|r t] eqn:E.
  { exfalso. eapply where_id_nil; eauto. }
  cbn [map]. eexists. split; [reflexivity|]. done.
Qed.

End BackendOffer.

(** C1, on [Backend/server.js]: the issuance has no check of the status.
    For the pending application 1 it answers 200, the pointer of the
    pending record is set and the uploaded file stays in the directory.
    [RootOffer.gate] and [RootOffer.refused] show the other server doing
    what the claim says. *)
Theorem backend_offer_letter_for_pending :
  let w := world_of [alice] alice_files false in
  let req := {| offer_id := Some 1%Z;
                offer_file := Some (pdf "offerLetter-9-9.pdf" "offer") |} in
  map status (rows (db w)) = ["Pending"]
  /\ fst (Backend.post_offer_letter req w)
     = Some (reply 200 true (Some "Offer letter uploaded successfully")
               (file_path "/Uploads/offerLetter-9-9.pdf"))
  /\ map status (rows (db (snd (Backend.post_offer_letter req w)))) = ["Pending"]
  /\ map offer_letter_path (rows (db (snd (Backend.post_offer_letter req w))))
     = [Some "offerLetter-9-9.pdf"]
  /\ uploads w !! "offerLetter-9-9.pdf" = None
  /\ uploads (snd (Backend.post_offer_letter req w)) !! "offerLetter-9-9.pdf" = Some "offer".
Proof. repeat split; vm_compute; reflexivity. Qed.

(** C7, on [Backend/server.js]: a second offer letter does not remove the
    first.  After the request the pointer names the new file and both files
    are in the directory.  [RootOffer.reissue] shows the other server
    deleting the old file. *)
Theorem backend_reissue_keeps_old_file :
  let w := world_of [hired] hired_files false in
  let req := {| offer_id := Some 1%Z;
                offer_file := Some (pdf "offerLetter-9-9.pdf" "second offer") |} in
  map status (rows (db w)) = ["Approved"]
  /\ map offer_letter_path (rows (db w)) = [Some "offerLetter-5-5.pdf"]
  /\ fst (Backend.post_offer_letter req w)
     = Some (reply 200 true (Some "Offer letter uploaded successfully")
               (file_path "/Uploads/offerLetter-9-9.pdf"))
  /\ map offer_letter_path (rows (db (snd (Backend.post_offer_letter req w))))
     = [Some "offerLetter-9-9.pdf"]
  /\ uploads (snd (Backend.post_offer_letter req w)) !! "offerLetter-5-5.pdf"
     = Some "first offer"
  /\ uploads (snd (Backend.post_offer_letter req w)) !! "offerLetter-9-9.pdf"
     = Some "second offer".
Proof. repeat split; vm_compute; reflexivity. Qed.

(** ** Retrieval of the offer letter *)

Lemma matches_spec ref mail r :
  matches ref mail r = true <->
  reference_id r = ref /\ email r = mail /\ status r = "Approved".
Proof.
  unfold matches. rewrite !andb_true_iff, !String.eqb_eq. tauto.
Qed.

Lemma filter_nil_iff {A} (p : A -> bool) (l : list A) :
  List.filter p l = [] <-> forall a, In a l -> p a = false.
Proof.
  split.
  - intros H a Ha. destruct (p a) eqn:E; [|done].
    assert (Hin : In a (List.filter p l)) by (apply filter_In; auto).
    rewrite H in Hin. destruct Hin.
  - intros H. induction l as [|x l IH]; simpl; [done|].
    rewrite (H x) by (left; done). apply IH. intros a Ha. apply H. by right.
Qed.

(** A filter that can only hold rows with one key, over rows whose keys are
    distinct, selects at most that one row. *)
Lemma filter_unique {A B} (f : A -> B) (p : A -> bool) (l : list A) (a : A) :
  NoDup (map f l) ->
  In a l ->
  p a = true ->
  (forall r, In r l -> p r = true -> f r = f a) ->
  List.filter p l = [a].
Proof.
  induction l as [|x l IH]; simpl; [done|].
  intros Hnd Hin Hpa Hkey. apply NoDup_cons in Hnd as [Hnotin Hnd].
  destruct Hin as [-> | Hin].
  - rewrite Hpa. f_equal. apply filter_nil_iff. intros r Hr.
    destruct (p r) eqn:E; [|done]. exfalso. apply Hnotin.
    rewrite <- (Hkey r (or_intror Hr) E). apply list_elem_of_In, in_map, Hr.
  - destruct (p x) eqn:E.
    + exfalso. apply Hnotin. rewrite (Hkey x (or_introl eq_refl) E).
      apply list_elem_of_In, in_map, Hin.
    + apply IH; auto.
Qed.

Lemma get_offer_letter_supplied (w : world) (ref mail : string) :
  ref <> "" -> mail <> "" ->
  Root.get_offer_letter {| query_reference_id := Some ref; query_email := Some mail |} w
  = (Some (retrieved w ref mail), sent w (Select_offer ref mail)).
Proof.
  intros Hr Hm. apply String.eqb_neq in Hr, Hm.
  unfold Root.get_offer_letter, run, Root.download_offer_letter, try_catch, bind,
    query_select_offer, retrieved.
  cbn [query_reference_id query_email of_option truthy text_of].
  rewrite Hr, Hm. cbn [negb orb]. world_norm.
  change (fun r => (reference_id r =? ref)%string && (email r =? mail)%string
                   && (status r =? "Approved")%string)
    with (matches ref mail).
  destruct (List.filter (matches ref mail) (rows (db w))) as [|r t]; [done|].
  destruct (offer_letter_path r) as [p|]; [|done].
  cbn [of_option truthy text_of].
  destruct (String.eqb p ""); cbn [negb]; [done|].
  unfold existsSync. world_norm.
  by destruct (bool_decide (is_Some (uploads w !! p))).
Qed.

(** X16. Unless both credentials are given and non-empty, the retrieval
    answers 400 and sends no statement. *)
Lemma get_offer_letter_unsupplied (w : world) (req : retrieval) :
  (forall ref mail, query_reference_id req = Some ref -> query_email req = Some mail ->
     ref = "" \/ mail = "") ->
  Root.get_offer_letter req w
  = (Some (reply 400 false (Some "Reference ID and email are required") no_payload), w).
Proof.
  intros H. destruct req as [[ref|] [mail|]]; try reflexivity.
  - destruct (H ref mail eq_refl eq_refl) as [-> | ->]; [reflexivity|].
    unfold Root.get_offer_letter, run, Root.download_offer_letter, try_catch.
    cbn [query_reference_id query_email of_option truthy].
    by destruct (ref =? "")%string.
  - unfold Root.get_offer_letter, run, Root.download_offer_letter, try_catch.
    cbn [query_reference_id query_email of_option truthy].
    by destruct (ref =? "")%string.
Qed.

(** C8. For a supplied pair (reference id, email), the retrieval succeeds
    only when a record has exactly that reference id and that email, is
    approved, and has a recorded offer letter whose file is in the upload
    directory.  When no approved record matches both credentials the answer
    is 404 'Application not found or not approved'; when the matching record
    has no pointer it is 404 'Offer letter not found'; when the pointer names
    a file that is not there it is 404 'Offer letter file not found on
    server'; the three answers differ.  The retrieval changes neither the
    table nor the directory. *)
Theorem offer_letter_retrieval (w : world) (ref mail : string) :
  ref <> "" ->
  mail <> "" ->
  NoDup (map reference_id (rows (db w))) ->
  exists r,
    Root.get_offer_letter {| query_reference_id := Some ref; query_email := Some mail |} w
    = (Some r, sent w (Select_offer ref mail))
    /\ (code r = 200 ->
        exists a p c,
          In a (rows (db w)) /\ reference_id a = ref /\ email a = mail
          /\ status a = "Approved" /\ offer_letter_path a = Some p
          /\ uploads w !! p = Some c /\ data r = offer (Some p))
    /\ ((forall a, In a (rows (db w)) ->
           ~ (reference_id a = ref /\ email a = mail /\ status a = "Approved")) ->
        r = not_found "Application not found or not approved")
    /\ (forall a, In a (rows (db w)) ->
          reference_id a = ref -> email a = mail -> status a = "Approved" ->
          (offer_letter_path a = None \/ offer_letter_path a = Some "" ->
           r = not_found "Offer letter not found")
          /\ (forall p, offer_letter_path a = Some p -> p <> "" ->
                uploads w !! p = None ->
                r = not_found "Offer letter file not found on server")
          /\ (forall p c, offer_letter_path a = Some p -> p <> "" ->
                uploads w !! p = Some c ->
                r = reply 200 true None (offer (Some p))))
    /\ not_found "Application not found or not approved" <> not_found "Offer letter not found"
    /\ not_found "Offer letter not found" <> not_found "Offer letter file not found on server"
    /\ not_found "Application not found or not approved"
       <> not_found "Offer letter file not found on server".
Proof.
  intros Hr Hm Hnd. exists (retrieved w ref mail).
  split; [by apply get_offer_letter_supplied|].
  split; [|split; [|split; [|repeat split; discriminate]]].
  - unfold retrieved.
    destruct (List.filter (matches ref mail) (rows (db w))) as [|a t] eqn:E;
      [discriminate|].
    assert (Ha : In a (List.filter (matches ref mail) (rows (db w))))
      by (rewrite E; left; done).
    apply filter_In in Ha as [Ha Hmatch]. apply matches_spec in Hmatch as (E1 & E2 & E3).
    destruct (offer_letter_path a) as [p|] eqn:Hp; [|discriminate].
    destruct (String.eqb p ""); [discriminate|].
    case_bool_decide as Hfile; [|discriminate].
    destruct Hfile as [c Hc]. intros _. exists a, p, c. auto 10.
  - intros Hnone. unfold retrieved.
    replace (List.filter (matches ref mail) (rows (db w))) with (@nil application); [done|].
    symmetry. apply filter_nil_iff. intros a Ha.
    destruct (matches ref mail a) eqn:E; [|done].
    apply matches_spec in E. by destruct (Hnone a Ha).
  - intros a Ha E1 E2 E3. unfold retrieved.
    rewrite (filter_unique reference_id (matches ref mail) _ a Hnd Ha).
    + repeat split.
      * intros [-> | ->]; reflexivity.
      * intros p -> Hp Hfile. apply String.eqb_neq in Hp. rewrite Hp, Hfile.
        rewrite bool_decide_false; [done|]. intros [? ?]; done.
      * intros p c -> Hp Hfile. apply String.eqb_neq in Hp. rewrite Hp, Hfile.
        rewrite bool_decide_true; eauto.
    + apply matches_spec. auto.
    + intros r _ Hmatch. apply matches_spec in Hmatch as (-> & _). done.
Qed.

Lemma offer_letter_retrieval_witness :
  let w := world_of [hired] hired_files true in
  exists r,
    Root.get_offer_letter {| query_reference_id := Some "AAAAAAAAAAAAAAA";
                             query_email := Some "a@x.com" |} w
    = (Some r, sent w (Select_offer "AAAAAAAAAAAAAAA" "a@x.com"))
    /\ r = reply 200 true None (offer (Some "offerLetter-5-5.pdf")).
Proof.
  intros w.
  destruct (offer_letter_retrieval w "AAAAAAAAAAAAAAA" "a@x.com")
    as (r & Hrun & _ & _ & Hfound & _).
  - discriminate.
  - discriminate.
  - apply NoDup_cons. split; [apply not_elem_of_nil | apply NoDup_nil_2].
  - exists r. split; [exact Hrun|].
    destruct (Hfound hired (or_introl eq_refl) eq_refl eq_refl eq_refl) as (_ & _ & Hok).
    apply (Hok "offerLetter-5-5.pdf" "first offer"); [reflexivity | discriminate | reflexivity].
Defined.

(** ** Intake *)

Lemma find_none_all {A} (p : A -> bool) (l : list A) :
  (forall x, In x l -> p x = false) -> List.find p l = None.
Proof.
  induction l as [|x l IH]; simpl; [done|]. intros H.
  rewrite (H x) by (left; done). apply IH. intros y Hy. apply H. by right.
Qed.

Lemma complete_root_find req fs :
  complete req fs ->
  List.find (fun f => negb (truthy (field (body req) f))) Root.requiredFields = None.
Proof.
  intros (_ & H & _). apply find_none_all. intros f Hf. by rewrite (H f Hf).
Qed.

(** The handlers of the intake never touch the upload directory: whatever
    multer stored for the request is still there when they are done, also
    when they answer with an error. *)
Lemma root_submit_keeps_files (e : env) (req : submission) (w : world) :
  exists r w', Root.post_applications e req w = (Some r, w')
               /\ uploads w' = uploads (store_files (staged req) w).
Proof.
  unfold Root.post_applications, run, Root.submit, try_catch.
  generalize (store_files (staged req) w). intros w1.
  destruct (List.find _ Root.requiredFields) as [f|]; [by eexists _, _|].
  unfold bind. destruct (files req) as [fs|]; [|by eexists _, _].
  cbn [ret]. destruct (_ || _); [by eexists _, _|].
  unfold query_insert. destruct (insert _ _) as [err|[a t]]; by eexists _, _.
Qed.

Lemma backend_submit_keeps_files (e : env) (req : submission) (w : world) :
  exists r w', Backend.post_applications e req w = (Some r, w')
               /\ uploads w' = uploads (store_files (staged req) w).
Proof.
  unfold Backend.post_applications, run, Backend.submit, try_catch.
  generalize (store_files (staged req) w). intros w1.
  destruct (0 <? _)%nat; [by eexists _, _|].
  unfold bind. destruct (files req) as [fs|]; [|by eexists _, _].
  cbn [ret]. unfold query_insert. destruct (insert _ _) as [err|[a t]]; by eexists _, _.
Qed.

(** C2, on both servers: a submission whose email is already on file is
    answered with an error and no row is added, but the three documents
    multer stored for it stay in the upload directory: the directory after
    the request is not the directory before it.  The catch block of the
    intake deletes nothing, unlike the catch block of the offer-letter
    upload. *)
Theorem duplicate_email_leaves_documents :
  let w := world_of [alice] alice_files true in
  let req := {| body := full_form "a@x.com" "2222222222";
                files := Some three_documents |} in
  fst (Root.post_applications fresh req w)
  = Some (reply 500 false (Some "Email already exists") no_payload)
  /\ fst (Backend.post_applications fresh req w)
     = Some (reply 500 false (Some "Internal server error") no_payload)
  /\ rows (db (snd (Root.post_applications fresh req w))) = rows (db w)
  /\ rows (db (snd (Backend.post_applications fresh req w))) = rows (db w)
  /\ uploads w !! "sscDoc-2-1.pdf" = None
  /\ uploads (snd (Root.post_applications fresh req w)) !! "sscDoc-2-1.pdf"
     = Some "ssc of B"
  /\ uploads (snd (Backend.post_applications fresh req w)) !! "sscDoc-2-1.pdf"
     = Some "ssc of B"
  /\ dom (uploads (snd (Root.post_applications fresh req w)))
     = dom (uploads w)
       ∪ {[ "sscDoc-2-1.pdf"; "intermediateDoc-2-2.pdf"; "graduationDoc-2-3.pdf" ]}
  /\ uploads (snd (Root.post_applications fresh req w)) <> uploads w
  /\ uploads (snd (Backend.post_applications fresh req w)) <> uploads w.
Proof.
  intros w req.
  assert (H1 : uploads (snd (Root.post_applications fresh req w)) !! "sscDoc-2-1.pdf"
               = Some "ssc of B") by (vm_compute; reflexivity).
  assert (H2 : uploads (snd (Backend.post_applications fresh req w)) !! "sscDoc-2-1.pdf"
               = Some "ssc of B") by (vm_compute; reflexivity).
  assert (H0 : uploads w !! "sscDoc-2-1.pdf" = None) by (vm_compute; reflexivity).
  repeat split; try (vm_compute; reflexivity); try done;
    intros E; rewrite E in *; congruence.
Qed.

(** C4, as stated, fails: the first reference id generated collides with
    the one of [alice], the next fifteen draws would spell a free one, and
    the handler has answered with an error after a single [INSERT]. *)
Lemma reference_collision_not_retried :
  let w := world_of [alice] alice_files true in
  let req := {| body := full_form "b@x.com" "2222222222";
                files := Some three_documents |} in
  Root.generateReferenceId colliding = reference_id alice
  /\ Root.generateReferenceId fresh = "BBBBBBBBBBBBBBB"
  /\ ~ In "BBBBBBBBBBBBBBB" (map reference_id (rows (db w)))
  /\ fst (Root.post_applications colliding req w)
     = Some (reply 500 false (Some "Failed to submit application") no_payload)
  /\ attempts (snd (Root.post_applications colliding req w)) = ["AAAAAAAAAAAAAAA"]
  /\ fst (Root.post_applications fresh req w)
     = Some (reply 201 true None (reference "BBBBBBBBBBBBBBB")).
Proof.
  intros w req. repeat split; try (vm_compute; reflexivity).
  simpl. intros [H|[]]. discriminate.
Qed.

(** *** The [INSERT] of the intake, in any database *)

Lemma query_insert_statement : insert_statement query_insert.
Proof.
  intros mk w. unfold query_insert, insert.
  destruct (violated (db w) (mk (next_id (db w)))); world_norm;
    cbn [bump with_rows rows]; (split; [done|]); (split; [by eexists|]); done.
Qed.

Lemma checked_insert_statement (refusal : application -> option exn) :
  insert_statement (checked_insert refusal).
Proof.
  intros mk w. unfold checked_insert.
  destruct (refusal _); [|apply query_insert_statement].
  world_norm. cbn [bump rows]. split; [done|]. split; [by eexists|done].
Qed.

(** The handlers are the handlers with the insert left open, run on the
    insert of the model. *)
Lemma root_post_applications_on (e : env) (req : submission) (w : world) :
  Root.post_applications e req w = Root.post_applications_on query_insert e req w.
Proof. reflexivity. Qed.

Lemma backend_post_applications_on (e : env) (req : submission) (w : world) :
  Backend.post_applications e req w = Backend.post_applications_on query_insert e req w.
Proof. reflexivity. Qed.

(** A complete submission gets to the [INSERT] on [Root], and the answer is
    read off what the database says. *)
Lemma root_insert_outcome (ins : (Z -> application) -> M application)
    (e : env) (req : submission) (fs : list (string * upfile)) (w : world) :
  complete req fs ->
  Root.post_applications_on ins e req w
  = (Some match fst (ins (Root.new_application (Root.generateReferenceId e) req fs)
                         (store_files (staged req) w)) with
          | inl err => reply 500 false (Some (Root.submit_error err)) no_payload
          | inr a => reply 201 true None (reference (reference_id a))
          end,
     snd (ins (Root.new_application (Root.generateReferenceId e) req fs)
              (store_files (staged req) w))).
Proof.
  intros Hc. pose proof Hc as (Hfiles & _ & H1 & H2 & H3).
  unfold Root.post_applications_on, run, Root.submit_on, try_catch, bind.
  rewrite (complete_root_find _ _ Hc), Hfiles. cbn [ret].
  rewrite H1, H2, H3. cbn [negb orb].
  destruct (ins _ _) as [[err|a] w2]; reflexivity.
Qed.

(** A multipart submission with the five required fields gets to the
    [INSERT] on [Backend]. *)
Lemma backend_insert_outcome (ins : (Z -> application) -> M application)
    (e : env) (req : submission) (fs : list (string * upfile)) (w : world) :
  files req = Some fs ->
  (forall f, In f Backend.requiredFields -> truthy (field (body req) f) = true) ->
  Backend.post_applications_on ins e req w
  = (Some match fst (ins (Backend.new_application (Backend.reference_id_of e) req fs)
                         (store_files (staged req) w)) with
          | inl err =>
              {| code := 500; success := false;
                 message := Some "Internal server error"; data := no_payload;
                 details := if development e then Some (err_message err) else None |}
          | inr a => reply 201 true (Some "Application submitted successfully")
                       (reference (reference_id a))
          end,
     snd (ins (Backend.new_application (Backend.reference_id_of e) req fs)
              (store_files (staged req) w))).
Proof.
  intros Hfiles Hfields.
  unfold Backend.post_applications_on, run, Backend.submit_on, try_catch, bind.
  replace (List.filter (fun f => negb (truthy (field (body req) f))) Backend.requiredFields)
    with (@nil string).
  2:{ symmetry. apply filter_nil_iff. intros f Hf. by rewrite (Hfields f Hf). }
  rewrite Hfiles. cbn [length Nat.ltb Nat.leb ret].
  destruct (ins _ _) as [[err|a] w2]; reflexivity.
Qed.

(** What one [INSERT] leaves of a world in which the files of a request
    were stored. *)
Lemma insert_after_upload (ins : (Z -> application) -> M application)
    (mk : Z -> application) (ref : string) (fs : list upfile) (w : world) :
  insert_statement ins ->
  (forall i, reference_id (mk i) = ref) ->
  uploads (snd (ins mk (store_files fs w))) = uploads (store_files fs w)
  /\ queries (snd (ins mk (store_files fs w))) = queries w ++ [Insert ref]
  /\ attempts (snd (ins mk (store_files fs w))) = attempts w ++ [ref]
  /\ match fst (ins mk (store_files fs w)) with
     | inl _ => rows (db (snd (ins mk (store_files fs w)))) = rows (db w)
     | inr a => rows (db (snd (ins mk (store_files fs w)))) = rows (db w) ++ [a]
     end.
Proof.
  intros Hins Hmk. destruct (Hins mk (store_files fs w)) as (Hu & (i & Hq) & Hr).
  rewrite Hmk, store_files_queries in Hq. rewrite store_files_db in Hr.
  split; [done|]. split; [done|]. split; [|done].
  unfold attempts. by rewrite Hq, omap_app.
Qed.

Lemma submit_error_reference :
  Root.submit_error (unique_violation "job_applications_reference_id_key")
  = "Failed to submit application".
Proof. vm_compute. reflexivity. Qed.

(** C4, amended. When the database refuses the [INSERT] of the intake for
    the uniqueness of [reference_id], neither server generates a second id
    or retries: after exactly one [INSERT] the client gets HTTP 500 with the
    generic failure message, on the first collision, and no row has been
    added.  This holds whatever else the database checks: [ins] is any
    behaviour of the [INSERT].  [Root] gets to the [INSERT] with its twenty
    fields and three documents, [Backend] with its five fields. *)
Theorem reference_collision_is_final (ins : (Z -> application) -> M application)
    (e : env) (req : submission) (fs : list (string * upfile)) (w : world) :
  insert_statement ins ->
  (complete req fs ->
   fst (ins (Root.new_application (Root.generateReferenceId e) req fs)
            (store_files (staged req) w))
   = inl (unique_violation "job_applications_reference_id_key") ->
   exists w', Root.post_applications_on ins e req w
              = (Some (reply 500 false (Some "Failed to submit application") no_payload), w')
              /\ attempts w' = attempts w ++ [Root.generateReferenceId e]
              /\ rows (db w') = rows (db w))
  /\ (files req = Some fs ->
      (forall f, In f Backend.requiredFields -> truthy (field (body req) f) = true) ->
      fst (ins (Backend.new_application (Backend.reference_id_of e) req fs)
               (store_files (staged req) w))
      = inl (unique_violation "job_applications_reference_id_key") ->
      exists r w', Backend.post_applications_on ins e req w = (Some r, w')
                   /\ code r = 500 /\ message r = Some "Internal server error"
                   /\ data r = no_payload
                   /\ attempts w' = attempts w ++ [Backend.reference_id_of e]
                   /\ rows (db w') = rows (db w)).
Proof.
  intros Hins. split.
  - intros Hc Hrefused.
    destruct (insert_after_upload ins
                (Root.new_application (Root.generateReferenceId e) req fs)
                (Root.generateReferenceId e) (staged req) w Hins)
      as (_ & _ & Hatt & Hrows); [done|].
    rewrite (root_insert_outcome ins e req fs w Hc).
    rewrite Hrefused in *. rewrite submit_error_reference.
    eexists. split; [reflexivity|]. done.
  - intros Hfiles Hfields Hrefused.
    destruct (insert_after_upload ins
                (Backend.new_application (Backend.reference_id_of e) req fs)
                (Backend.reference_id_of e) (staged req) w Hins)
      as (_ & _ & Hatt & Hrows); [done|].
    rewrite (backend_insert_outcome ins e req fs w Hfiles Hfields).
    rewrite Hrefused in *.
    eexists _, _. split; [reflexivity|]. done.
Qed.

Lemma full_form_complete mail mobile :
  mail <> "" -> mobile <> "" ->
  complete {| body := full_form mail mobile; files := Some three_documents |}
           three_documents.
Proof.
  intros Hm Hn. apply String.eqb_neq in Hm, Hn.
  split; [done|]. split; [|by vm_compute].
  intros f Hf. unfold Root.requiredFields in Hf. simpl in Hf.
  repeat (destruct Hf as [<- | Hf];
          [first [ by vm_compute
                 | by (change (truthy (JStr mail) = true); simpl; rewrite Hm)
                 | by (change (truthy (JStr mobile) = true); simpl; rewrite Hn) ] |]).
  destruct Hf.
Qed.

Lemma short_form_fields mail mobile f :
  mail <> "" -> mobile <> "" ->
  In f Backend.requiredFields ->
  truthy (field (short_form mail mobile) f) = true.
Proof.
  intros Hm Hn Hf. apply String.eqb_neq in Hm, Hn.
  unfold Backend.requiredFields in Hf. simpl in Hf.
  repeat (destruct Hf as [<- | Hf];
          [first [ by vm_compute
                 | by (change (truthy (JStr mail) = true); simpl; rewrite Hm)
                 | by (change (truthy (JStr mobile) = true); simpl; rewrite Hn) ] |]).
  destruct Hf.
Qed.

Lemma reference_collision_is_final_witness :
  (let w := world_of [alice] alice_files true in
   let req := {| body := full_form "b@x.com" "2222222222";
                 files := Some three_documents |} in
   exists w', Root.post_applications colliding req w
              = (Some (reply 500 false (Some "Failed to submit application") no_payload), w')
              /\ attempts w' = attempts w ++ [reference_id alice]
              /\ rows (db w') = rows (db w))
  /\ (let w := world_of [bob] ∅ false in
      let req := {| body := short_form "c@x.com" "3333333333"; files := Some [] |} in
      exists r w', Backend.post_applications fresh req w = (Some r, w')
                   /\ code r = 500 /\ message r = Some "Internal server error"
                   /\ data r = no_payload
                   /\ attempts w' = attempts w ++ [reference_id bob]
                   /\ rows (db w') = rows (db w)).
Proof.
  split; intros w req.
  - apply (reference_collision_is_final query_insert colliding req three_documents w
             query_insert_statement).
    + apply full_form_complete; discriminate.
    + vm_compute. reflexivity.
  - apply (reference_collision_is_final query_insert fresh req [] w
             query_insert_statement).
    + reflexivity.
    + intros f Hf. apply short_form_fields; [discriminate|discriminate|exact Hf].
    + vm_compute. reflexivity.
Defined.

(** X7. [Backend] answers a submission that lacks required fields with the
    list of all of them, before any statement is sent. *)
Lemma backend_lists_every_missing (e : env) (req : submission) (w : world) :
  (exists f, In f Backend.requiredFields /\ truthy (field (body req) f) = false) ->
  exists l,
    Backend.post_applications e req w
    = (Some (reply 400 false (Some "Missing required fields") (missing l)),
       store_files (staged req) w)
    /\ (forall f, In f l <->
          In f Backend.requiredFields /\ truthy (field (body req) f) = false).
Proof.
  intros (f & Hf & Hfalsy).
  exists (List.filter (fun f => negb (truthy (field (body req) f))) Backend.requiredFields).
  split.
  - unfold Backend.post_applications, run, Backend.submit, try_catch.
    destruct (List.filter _ Backend.requiredFields) as [|x l] eqn:E; [|reflexivity].
    exfalso. assert (Hin : In f []); [|destruct Hin].
    rewrite <- E. apply filter_In. by rewrite Hfalsy.
  - intros g. rewrite filter_In, negb_true_iff. tauto.
Qed.

(** C5, on [Root]: a submission without [full_name] and without [email] is
    answered with a message that names [full_name] only, the first field of
    the list the loop walks through.  [Backend] answers the same form with
    both names ([backend_lists_every_missing]).  Neither handler sends a
    statement. *)
Theorem root_reports_first_missing_field_only :
  let w := world_of [] ∅ true in
  let req := {| body := delete "full_name" (delete "email" (full_form "b@x.com" "2222222222"));
                files := Some [] |} in
  List.filter (fun f => negb (truthy (field (body req) f))) Root.requiredFields
  = ["full_name"; "email"]
  /\ Root.post_applications fresh req w
     = (Some (reply 400 false (Some "Missing field: full_name") no_payload), w)
  /\ Backend.post_applications fresh req w
     = (Some (reply 400 false (Some "Missing required fields")
                (missing ["full_name"; "email"])), w).
Proof. repeat split; vm_compute; reflexivity. Qed.

(** C6, as stated, fails: a submission with every field and the SSC
    document only gets the fixed message 'Missing required documents' from
    [Root], which names neither of the two documents that are missing, and
    the SSC document stays in the upload directory; [Backend] accepts the
    submission and adds a row. *)
Lemma missing_documents_not_named :
  let w := world_of [alice] alice_files true in
  let req := {| body := full_form "b@x.com" "2222222222"; files := Some ssc_only |} in
  missing_documents req = ["intermediateDoc"; "graduationDoc"]
  /\ fst (Root.post_applications fresh req w)
     = Some (reply 400 false (Some "Missing required documents") no_payload)
  /\ uploads w !! "sscDoc-2-1.pdf" = None
  /\ uploads (snd (Root.post_applications fresh req w)) !! "sscDoc-2-1.pdf"
     = Some "ssc of B"
  /\ ~ rejects_naming_documents Root.post_applications fresh req w
  /\ code <$> fst (Backend.post_applications fresh req w) = Some 201
  /\ length (rows (db (snd (Backend.post_applications fresh req w)))) = 2
  /\ ~ rejects_naming_documents Backend.post_applications fresh req w.
Proof.
  intros w req.
  assert (Hroot : fst (Root.post_applications fresh req w)
                  = Some (reply 400 false (Some "Missing required documents") no_payload))
    by (vm_compute; reflexivity).
  assert (Hback : code <$> fst (Backend.post_applications fresh req w) = Some 201)
    by (vm_compute; reflexivity).
  split; [reflexivity|]. split; [exact Hroot|].
  split; [vm_compute; reflexivity|]. split; [vm_compute; reflexivity|].
  split; [|split; [exact Hback|split; [vm_compute; reflexivity|]]].
  - intros H. destruct H as (r & Hr & _ & Hnames & _); [discriminate|].
    assert (E : r = reply 400 false (Some "Missing required documents") no_payload)
      by congruence.
    destruct (Hnames "graduationDoc") as [(m & Hm & Hinc) | (l & Hl & _)].
    + right. left. reflexivity.
    + subst r. injection Hm as <-. vm_compute in Hinc. discriminate.
    + subst r. discriminate.
  - intros H. destruct H as (r & Hr & Hcode & _); [discriminate|].
    rewrite Hr in Hback. simpl in Hback. congruence.
Qed.

(** C6, amended. On [Root] a multipart submission that has every required
    field and lacks one of the three required documents is answered with
    HTTP 400 and the fixed message 'Missing required documents', which does
    not say which document is missing; no statement is sent, so no row is
    added. *)
Theorem missing_document_rejected (e : env) (req : submission)
    (fs : list (string * upfile)) (w : world) :
  files req = Some fs ->
  (forall f, In f Root.requiredFields -> truthy (field (body req) f) = true) ->
  missing_documents req <> [] ->
  exists w',
    Root.post_applications e req w
    = (Some (reply 400 false (Some "Missing required documents") no_payload), w')
    /\ queries w' = queries w
    /\ db w' = db w.
Proof.
  intros Hfiles Hfields Hmiss.
  unfold Root.post_applications, run, Root.submit, try_catch, bind.
  rewrite find_none_all by (intros f Hf; by rewrite (Hfields f Hf)).
  rewrite Hfiles. cbn [ret].
  unfold missing_documents, required_documents in Hmiss.
  rewrite Hfiles in Hmiss. cbn [default from_option List.filter] in Hmiss.
  unfold id in Hmiss.
  destruct (present (file_of "sscDoc" fs)); cbn [negb orb];
    [|eexists; split; [reflexivity|]; by rewrite store_files_queries, store_files_db].
  destruct (present (file_of "intermediateDoc" fs)); cbn [negb orb];
    [|eexists; split; [reflexivity|]; by rewrite store_files_queries, store_files_db].
  destruct (present (file_of "graduationDoc" fs)); cbn [negb orb];
    [|eexists; split; [reflexivity|]; by rewrite store_files_queries, store_files_db].
  cbn [negb] in Hmiss. done.
Qed.

Lemma missing_document_rejected_witness :
  let w := world_of [alice] alice_files true in
  let req := {| body := full_form "b@x.com" "2222222222"; files := Some ssc_only |} in
  exists w',
    Root.post_applications fresh req w
    = (Some (reply 400 false (Some "Missing required documents") no_payload), w')
    /\ queries w' = queries w
    /\ db w' = db w.
Proof.
  intros w req.
  apply (missing_document_rejected fresh req ssc_only w).
  - reflexivity.
  - apply (full_form_complete "b@x.com" "2222222222"); discriminate.
  - vm_compute. discriminate.
Defined.

(** * Further properties *)

(** ** Files stored by multer *)

Lemma store_files_keeps fs w name :
  is_Some (uploads w !! name) -> is_Some (uploads (store_files fs w) !! name).
Proof.
  revert w. induction fs as [|f fs IH]; intros w H; [done|].
  cbn [store_files fold_left]. apply IH. unfold store_file. cbn [uploads with_uploads].
  destruct (decide (filename f = name)) as [->|Hne].
  - rewrite lookup_insert_eq. eauto.
  - by rewrite lookup_insert_ne.
Qed.

Lemma store_files_stored fs w f :
  In f fs -> is_Some (uploads (store_files fs w) !! filename f).
Proof.
  revert w. induction fs as [|g fs IH]; intros w Hin; [destruct Hin|].
  cbn [store_files fold_left]. destruct Hin as [->|Hin]; [|by apply IH].
  apply store_files_keeps. unfold store_file. cbn [uploads with_uploads].
  rewrite lookup_insert_eq. eauto.
Qed.

Lemma store_files_other fs w name :
  ~ In name (map filename fs) ->
  uploads (store_files fs w) !! name = uploads w !! name.
Proof.
  revert w. induction fs as [|g fs IH]; intros w Hn; [done|].
  cbn [store_files fold_left]. rewrite IH by (intros H; apply Hn; by right).
  unfold store_file. cbn [uploads with_uploads].
  apply lookup_insert_ne. intros E. apply Hn. by left.
Qed.

Lemma store_files_content fs w f :
  NoDup (map filename fs) -> In f fs ->
  uploads (store_files fs w) !! filename f = Some (content f).
Proof.
  revert w. induction fs as [|g fs IH]; intros w Hnd Hin; [destruct Hin|].
  cbn [map] in Hnd. apply NoDup_cons in Hnd as [Hg Hnd].
  cbn [store_files fold_left]. destruct Hin as [->|Hin]; [|by apply IH].
  rewrite store_files_other by (by rewrite <- list_elem_of_In).
  unfold store_file. cbn [uploads with_uploads]. apply lookup_insert_eq.
Qed.

Lemma file_of_In name fs f : file_of name fs = Some f -> In f (map snd fs).
Proof.
  unfold file_of. destruct (List.find _ fs) as [p|] eqn:E; [|discriminate].
  intros [= <-]. apply find_some in E as [Hp _]. by apply in_map.
Qed.

Lemma or_null_filename (o : option upfile) (name : string) :
  or_null (of_option (filename <$> o)) = Some name ->
  exists f, o = Some f /\ filename f = name.
Proof.
  destruct o as [f|]; [|discriminate]. simpl.
  destruct (negb (filename f =? "")%string); [|discriminate].
  intros [= <-]. eauto.
Qed.

Lemma or_null_set (f : upfile) :
  filename f <> "" -> or_null (of_option (filename <$> Some f)) = Some (filename f).
Proof.
  intros H. simpl. apply String.eqb_neq in H. by rewrite H.
Qed.

(** ** Intake: the submissions that go through *)

(** X1. On [Root], a complete submission whose [INSERT] the database
    accepts, whatever the database checks, is answered 201 with the
    reference id of the row the database returns.  Exactly one row is added,
    at the end, after one statement, and the upload directory holds what
    multer stored.  When the row stored has the values the handler sent, it
    carries the generated reference id, the status 'Pending' and no offer
    letter; every document pointer of the row names a file that is in the
    upload directory, and each required document that has a name is pointed
    to. *)
Theorem root_submission_accepted (ins : (Z -> application) -> M application)
    (e : env) (req : submission) (fs : list (string * upfile)) (w : world)
    (a : application) :
  insert_statement ins ->
  complete req fs ->
  fst (ins (Root.new_application (Root.generateReferenceId e) req fs)
           (store_files (staged req) w)) = inr a ->
  exists w',
    Root.post_applications_on ins e req w
    = (Some (reply 201 true None (reference (reference_id a))), w')
    /\ rows (db w') = rows (db w) ++ [a]
    /\ queries w' = queries w ++ [Insert (Root.generateReferenceId e)]
    /\ uploads w' = uploads (store_files (staged req) w)
    /\ ((exists i, a = Root.new_application (Root.generateReferenceId e) req fs i) ->
        reference_id a = Root.generateReferenceId e
        /\ email a = text_of (field (body req) "email")
        /\ mobile_number a = text_of (field (body req) "mobile_number")
        /\ status a = "Pending"
        /\ offer_letter_path a = None
        /\ (forall name, In (Some name) (document_pointers a) ->
             is_Some (uploads w' !! name))
        /\ (forall d f, In d required_documents -> file_of d fs = Some f ->
             filename f <> "" -> In (Some (filename f)) (document_pointers a))).
Proof.
  intros Hins Hc Hacc. pose proof Hc as (Hfiles & _).
  destruct (insert_after_upload ins
              (Root.new_application (Root.generateReferenceId e) req fs)
              (Root.generateReferenceId e) (staged req) w Hins)
    as (Hup & Hq & _ & Hrows); [done|].
  rewrite (root_insert_outcome ins e req fs w Hc).
  rewrite Hacc in *.
  eexists. split; [reflexivity|]. split; [done|]. split; [done|]. split; [done|].
  intros (i & ->). repeat (split; [reflexivity|]). rewrite Hup. split.
  - intros name Hname. unfold staged. rewrite Hfiles.
    assert (Hsrc : exists d f, file_of d fs = Some f /\ filename f = name).
    { unfold document_pointers in Hname.
      cbn [Root.new_application ssc_doc_path intermediate_doc_path graduation_doc_path
           additional_files_path] in Hname.
      destruct Hname as [E|[E|[E|[E|[]]]]];
        apply or_null_filename in E as (f & Hf & Hn); eauto. }
    destruct Hsrc as (d & f & Hf & <-).
    apply store_files_stored. by apply file_of_In in Hf.
  - intros d f Hd Hf Hne. unfold document_pointers.
    cbn [Root.new_application ssc_doc_path intermediate_doc_path graduation_doc_path
         additional_files_path].
    unfold required_documents in Hd.
    destruct Hd as [<-|[<-|[<-|[]]]]; rewrite Hf, (or_null_set f Hne); simpl; tauto.
Qed.

Lemma root_submission_accepted_witness :
  let w := world_of [alice] alice_files true in
  let req := {| body := full_form "b@x.com" "2222222222";
                files := Some three_documents |} in
  exists a w',
    Root.post_applications fresh req w
    = (Some (reply 201 true None (reference "BBBBBBBBBBBBBBB")), w')
    /\ rows (db w') = [alice; a]
    /\ queries w' = [Insert "BBBBBBBBBBBBBBB"]
    /\ uploads w' = uploads (store_files (staged req) w)
    /\ reference_id a = "BBBBBBBBBBBBBBB"
    /\ email a = "b@x.com"
    /\ mobile_number a = "2222222222"
    /\ status a = "Pending"
    /\ offer_letter_path a = None
    /\ (forall name, In (Some name) (document_pointers a) ->
         is_Some (uploads w' !! name))
    /\ (forall d f, In d required_documents -> file_of d three_documents = Some f ->
         filename f <> "" -> In (Some (filename f)) (document_pointers a)).
Proof.
  intros w req.
  destruct (root_submission_accepted query_insert fresh req three_documents w
              (Root.new_application (Root.generateReferenceId fresh) req three_documents 2)
              query_insert_statement)
    as (w' & Hrun & Hrows & Hq & Hup & Hrow).
  - apply full_form_complete; discriminate.
  - vm_compute. reflexivity.
  - exists (Root.new_application (Root.generateReferenceId fresh) req three_documents 2), w'.
    split; [exact Hrun|]. split; [exact Hrows|]. split; [exact Hq|]. split; [exact Hup|].
    apply Hrow. by exists 2%Z.
Defined.

(** ** The reference id of [Root] *)

Lemma string_of_list_ascii_length (l : list ascii) :
  String.length (string_of_list_ascii l) = length l.
Proof. induction l as [|c l IH]; simpl; [done|]. by rewrite IH. Qed.

Lemma char_at_in_chars (i : nat) :
  (i < 36)%nat -> In (Root.char_at i) (list_ascii_of_string Root.chars).
Proof.
  intros Hi.
  assert (Hall : forallb (fun k => existsb (Ascii.eqb (Root.char_at k))
                                     (list_ascii_of_string Root.chars))
                   (seq 0 36) = true) by (vm_compute; reflexivity).
  rewrite forallb_forall in Hall.
  specialize (Hall i). rewrite in_seq in Hall.
  specialize (Hall ltac:(lia)). apply existsb_exists in Hall as (c & Hc & E).
  apply Ascii.eqb_eq in E. by rewrite E.
Qed.

(** X2. Whatever [Math.random] draws, [generateReferenceId] returns fifteen
    characters, each a capital letter or a digit. *)
Theorem reference_id_format (e : env) :
  String.length (Root.generateReferenceId e) = 15%nat
  /\ forall c, In c (list_ascii_of_string (Root.generateReferenceId e)) ->
       In c (list_ascii_of_string "ABCDEFGHIJKLMNOPQRSTUVWXYZ0123456789").
Proof.
  unfold Root.generateReferenceId. split.
  - rewrite string_of_list_ascii_length, length_map, length_seq. done.
  - intros c. rewrite list_ascii_of_string_of_list_ascii, in_map_iff.
    intros (k & <- & _). apply char_at_in_chars.
    change (String.length Root.chars) with 36%nat.
    apply Nat.mod_upper_bound. done.
Qed.

(** ** Intake: the submissions that are refused *)

(** X3. On [Root], a complete submission whose [INSERT] the database
    refuses, for whatever reason, is answered 500; no row is added and the
    files multer stored for the request stay in the upload directory.  The
    message is 'Email already exists' when the error names the constraint
    [job_applications_email_key], 'Mobile number already exists' when it
    names [job_applications_mobile_number_key]; for any other error it is
    the message of the error when that contains 'Only PDF', and 'Failed to
    submit application' otherwise: so also for a value that a column does
    not take. *)
Theorem root_duplicate_contact (ins : (Z -> application) -> M application)
    (e : env) (req : submission) (fs : list (string * upfile)) (w : world)
    (err : exn) :
  insert_statement ins ->
  complete req fs ->
  fst (ins (Root.new_application (Root.generateReferenceId e) req fs)
           (store_files (staged req) w)) = inl err ->
  exists m w',
    Root.post_applications_on ins e req w
    = (Some (reply 500 false (Some m) no_payload), w')
    /\ rows (db w') = rows (db w)
    /\ uploads w' = uploads (store_files (staged req) w)
    /\ (constraint err = Some "job_applications_email_key" ->
        m = "Email already exists")
    /\ (constraint err = Some "job_applications_mobile_number_key" ->
        m = "Mobile number already exists")
    /\ (constraint err <> Some "job_applications_email_key" ->
        constraint err <> Some "job_applications_mobile_number_key" ->
        m = if includes "Only PDF" (err_message err) then err_message err
            else "Failed to submit application").
Proof.
  intros Hins Hc Hrefused.
  destruct (insert_after_upload ins
              (Root.new_application (Root.generateReferenceId e) req fs)
              (Root.generateReferenceId e) (staged req) w Hins)
    as (Hup & _ & _ & Hrows); [done|].
  rewrite (root_insert_outcome ins e req fs w Hc).
  rewrite Hrefused in *.
  eexists _, _. split; [reflexivity|]. split; [done|]. split; [done|].
  unfold Root.submit_error. repeat apply conj.
  - intros ->. done.
  - intros ->. done.
  - intros H1 H2. by rewrite !bool_decide_false.
Qed.

Lemma root_duplicate_contact_witness :
  (let w := world_of [alice] alice_files true in
   let req := {| body := full_form "b@x.com" "1111111111";
                 files := Some three_documents |} in
   exists w',
     Root.post_applications fresh req w
     = (Some (reply 500 false (Some "Mobile number already exists") no_payload), w')
     /\ rows (db w') = rows (db w)
     /\ uploads w' = uploads (store_files (staged req) w))
  /\ (let w := world_of [alice] alice_files true in
      let req := {| body := full_form "b@x.com" "22222222222";
                    files := Some three_documents |} in
      exists w',
        Root.post_applications_on (checked_insert mobile_number_width) fresh req w
        = (Some (reply 500 false (Some "Failed to submit application") no_payload), w')
        /\ rows (db w') = rows (db w)
        /\ uploads w' = uploads (store_files (staged req) w)).
Proof.
  split; intros w req.
  - destruct (root_duplicate_contact query_insert fresh req three_documents w
                (unique_violation "job_applications_mobile_number_key")
                query_insert_statement)
      as (m & w' & Hrun & Hrows & Hup & _ & Hm & _).
    + apply full_form_complete; discriminate.
    + vm_compute. reflexivity.
    + exists w'. rewrite <- (Hm eq_refl). split; [exact Hrun|]. split; [exact Hrows|exact Hup].
  - destruct (root_duplicate_contact (checked_insert mobile_number_width) fresh req
                three_documents w (value_too_long 10)
                (checked_insert_statement mobile_number_width))
      as (m & w' & Hrun & Hrows & Hup & _ & _ & Hm).
    + apply full_form_complete; discriminate.
    + vm_compute. reflexivity.
    + exists w'. rewrite Hm in Hrun by discriminate.
      split; [exact Hrun|]. split; [exact Hrows|exact Hup].
Defined.

(** X4. [Backend] asks for no document and for no field beyond its five:
    a multipart submission that has them gets to the [INSERT], with any
    documents or none.  When the database accepts the [INSERT], whatever it
    checks, the answer is 201 with the reference id of the row returned, one
    row is added, and the upload directory holds what multer stored.  When
    the row stored has the values the handler sent, it is 'Pending', without
    an offer letter, and its document pointers are the names of the files
    that came with the request, or null.  A table without the constraints on
    [email] and [mobile_number], as [init.sql] creates it, so takes a second
    application with an email and a mobile number on file. *)
Theorem backend_accepts_without_constraints (ins : (Z -> application) -> M application)
    (e : env) (req : submission) (fs : list (string * upfile)) (w : world)
    (a : application) :
  insert_statement ins ->
  files req = Some fs ->
  (forall f, In f Backend.requiredFields -> truthy (field (body req) f) = true) ->
  fst (ins (Backend.new_application (Backend.reference_id_of e) req fs)
           (store_files (staged req) w)) = inr a ->
  exists w',
    Backend.post_applications_on ins e req w
    = (Some (reply 201 true (Some "Application submitted successfully")
               (reference (reference_id a))), w')
    /\ rows (db w') = rows (db w) ++ [a]
    /\ uploads w' = uploads (store_files (staged req) w)
    /\ ((exists i, a = Backend.new_application (Backend.reference_id_of e) req fs i) ->
        reference_id a = Backend.reference_id_of e
        /\ email a = text_of (field (body req) "email")
        /\ mobile_number a = text_of (field (body req) "mobile_number")
        /\ status a = "Pending"
        /\ offer_letter_path a = None
        /\ document_pointers a
           = [ filename <$> file_of "sscDoc" fs; filename <$> file_of "intermediateDoc" fs;
               filename <$> file_of "graduationDoc" fs;
               filename <$> file_of "additionalFiles" fs ]).
Proof.
  intros Hins Hfiles Hfields Hacc.
  destruct (insert_after_upload ins
              (Backend.new_application (Backend.reference_id_of e) req fs)
              (Backend.reference_id_of e) (staged req) w Hins)
    as (Hup & _ & _ & Hrows); [done|].
  rewrite (backend_insert_outcome ins e req fs w Hfiles Hfields).
  rewrite Hacc in *.
  eexists. split; [reflexivity|]. split; [done|]. split; [done|].
  intros (i & ->). repeat split.
Qed.

Lemma backend_accepts_without_constraints_witness :
  let w := world_of [alice] alice_files false in
  let req := {| body := short_form "a@x.com" "1111111111"; files := Some [] |} in
  exists a w',
    Backend.post_applications fresh req w
    = (Some (reply 201 true (Some "Application submitted successfully")
               (reference "REF17000000000001")), w')
    /\ rows (db w') = [alice; a]
    /\ uploads w' = uploads w
    /\ reference_id a = "REF17000000000001"
    /\ email a = email alice
    /\ mobile_number a = mobile_number alice
    /\ status a = "Pending"
    /\ offer_letter_path a = None
    /\ document_pointers a = [None; None; None; None].
Proof.
  intros w req.
  destruct (backend_accepts_without_constraints query_insert fresh req [] w
              (Backend.new_application (Backend.reference_id_of fresh) req [] 2)
              query_insert_statement)
    as (w' & Hrun & Hrows & Hup & Hrow).
  - reflexivity.
  - intros f Hf. apply short_form_fields; [discriminate|discriminate|exact Hf].
  - vm_compute. reflexivity.
  - exists (Backend.new_application (Backend.reference_id_of fresh) req [] 2), w'.
    split; [exact Hrun|]. split; [exact Hrows|]. split; [exact Hup|].
    apply Hrow. by exists 2%Z.
Defined.

Lemma submit_error_type_error :
  Root.submit_error (type_error "sscDoc") = "Failed to submit application".
Proof. vm_compute. reflexivity. Qed.

(** X5. A submission that is not multipart, so that [req.files] is
    undefined, and that has every required field is answered 500 by both
    servers, the handler having thrown on the first look at [req.files]:
    nothing is stored, and no statement is sent. *)
Theorem submission_without_files_object (e : env) (req : submission) (w : world) :
  files req = None ->
  ((forall f, In f Root.requiredFields -> truthy (field (body req) f) = true) ->
   Root.post_applications e req w
   = (Some (reply 500 false (Some "Failed to submit application") no_payload), w))
  /\ ((forall f, In f Backend.requiredFields -> truthy (field (body req) f) = true) ->
      exists r, Backend.post_applications e req w = (Some r, w)
                /\ code r = 500 /\ message r = Some "Internal server error").
Proof.
  intros Hfiles. split; intros Hfields.
  - unfold Root.post_applications, run, Root.submit, try_catch, bind, staged.
    rewrite find_none_all by (intros f Hf; by rewrite (Hfields f Hf)).
    rewrite Hfiles. cbn [throw store_files fold_left].
    by rewrite submit_error_type_error.
  - unfold Backend.post_applications, run, Backend.submit, try_catch, bind, staged.
    replace (List.filter (fun f => negb (truthy (field (body req) f))) Backend.requiredFields)
      with (@nil string).
    2:{ symmetry. apply filter_nil_iff. intros f Hf. by rewrite (Hfields f Hf). }
    rewrite Hfiles. cbn [length Nat.ltb Nat.leb throw store_files fold_left].
    eexists. split; [reflexivity|]. done.
Qed.

Lemma submission_without_files_object_witness :
  let w := world_of [alice] alice_files true in
  let req := {| body := full_form "b@x.com" "2222222222"; files := None |} in
  Root.post_applications fresh req w
  = (Some (reply 500 false (Some "Failed to submit application") no_payload), w).
Proof.
  intros w req.
  apply (submission_without_files_object fresh req w).
  - reflexivity.
  - apply (full_form_complete "b@x.com" "2222222222"); discriminate.
Defined.

Lemma find_first {A} (p : A -> bool) (before after : list A) (x : A) :
  (forall y, In y before -> p y = false) -> p x = true ->
  List.find p (before ++ x :: after) = Some x.
Proof.
  intros Hb Hx. induction before as [|y before IH]; simpl.
  - by rewrite Hx.
  - rewrite (Hb y) by (left; done). apply IH. intros z Hz. apply Hb. by right.
Qed.

(** X6. [Root] reports the first required field, in the order of its
    list, that is absent or empty, and only that one; the table is not
    touched and no statement is sent. *)
Theorem root_reports_first_missing (e : env) (req : submission) (w : world)
    (before after : list string) (f : string) :
  Root.requiredFields = before ++ f :: after ->
  (forall g, In g before -> truthy (field (body req) g) = true) ->
  truthy (field (body req) f) = false ->
  exists w',
    Root.post_applications e req w
    = (Some (reply 400 false (Some ("Missing field: " +:+ f)) no_payload), w')
    /\ db w' = db w /\ queries w' = queries w.
Proof.
  intros Hsplit Hbefore Hf.
  unfold Root.post_applications, run, Root.submit, try_catch.
  rewrite Hsplit.
  rewrite (find_first _ before after f); [| |by rewrite Hf].
  - eexists. split; [reflexivity|]. by rewrite store_files_db, store_files_queries.
  - intros g Hg. by rewrite (Hbefore g Hg).
Qed.

Lemma root_reports_first_missing_witness :
  let w := world_of [alice] alice_files true in
  let req := {| body := delete "email" (delete "dob" (full_form "b@x.com" "2222222222"));
                files := Some three_documents |} in
  exists w',
    Root.post_applications fresh req w
    = (Some (reply 400 false (Some "Missing field: email") no_payload), w')
    /\ db w' = db w /\ queries w' = queries w.
Proof.
  intros w req.
  apply (root_reports_first_missing fresh req w ["full_name"]
           [ "mobile_number"; "department"; "job_role";
             "dob"; "father_name"; "permanent_address"; "expected_salary";
             "employment_type"; "branch_location"; "ssc_year"; "ssc_percentage";
             "intermediate_year"; "intermediate_percentage"; "college_name";
             "register_number"; "graduation_year"; "graduation_percentage";
             "experience_status" ] "email").
  - reflexivity.
  - intros g [<-|[]]. vm_compute. reflexivity.
  - vm_compute. reflexivity.
Defined.

(** The form of the specification's scenario without [email] and
    [job_role]: [Backend] lists both. *)
Lemma backend_lists_every_missing_witness :
  let w := world_of [alice] alice_files false in
  let req := {| body := delete "email" (delete "job_role" (full_form "b@x.com" "2222222222"));
                files := Some three_documents |} in
  exists l,
    Backend.post_applications fresh req w
    = (Some (reply 400 false (Some "Missing required fields") (missing l)),
       store_files (staged req) w)
    /\ (forall f, In f l <->
          In f Backend.requiredFields /\ truthy (field (body req) f) = false).
Proof.
  intros w req.
  apply (backend_lists_every_missing fresh req w).
  exists "email". split; [right; left; reflexivity | vm_compute; reflexivity].
Defined.

(** ** Reading an application back *)

Lemma update_where_id_compose (i : Z) (f g : application -> application)
    (l : list application) :
  (forall r, app_id (f r) = app_id r) ->
  update_where_id i g (update_where_id i f l)
  = update_where_id i (fun r => g (f r)) l.
Proof.
  intros Hf. unfold update_where_id. rewrite map_map. apply map_ext.
  intros r. destruct (app_id r =? i)%Z eqn:E; [by rewrite Hf, E|by rewrite E].
Qed.

Lemma update_where_id_absent (i : Z) (f : application -> application)
    (l : list application) :
  (forall a, In a l -> app_id a <> i) -> update_where_id i f l = l.
Proof.
  intros H. unfold update_where_id. rewrite <- (map_id l) at 2.
  apply map_ext_in. intros r Hr.
  destruct (Z.eqb_spec (app_id r) i) as [E|_]; [by destruct (H r Hr)|done].
Qed.

(** X8. [GET /api/applications/:id] on [Root] answers 400 when the id is
    not a number; for an id that PostgreSQL reads as an [INTEGER] it answers
    404 when no application has it, and otherwise 200 with the application
    that has it; it changes neither the table nor the upload directory.
    (An id beyond the range of [INTEGER] is refused by the database.) *)
Theorem root_fetch_application (w : world) :
  ids_unique w ->
  Root.get_applications_id None w
  = (Some (reply 400 false (Some "Invalid application ID") no_payload), w)
  /\ (forall i, int4 i -> (forall a, In a (rows (db w)) -> app_id a <> i) ->
        Root.get_applications_id (Some i) w
        = (Some (reply 404 false (Some "Application not found") no_payload),
           sent w (Select_by_id i)))
  /\ (forall a, int4 (app_id a) -> In a (rows (db w)) ->
        Root.get_applications_id (Some (app_id a)) w
        = (Some (reply 200 true None (row a)), sent w (Select_by_id (app_id a)))).
Proof.
  intros Hids. split; [reflexivity|]. split.
  - intros i _ Hi. unfold Root.get_applications_id, run, Root.fetch_application,
      try_catch, bind, query_select_by_id.
    by rewrite (proj2 (where_id_nil i (rows (db w))) Hi).
  - intros a _ Ha. unfold Root.get_applications_id, run, Root.fetch_application,
      try_catch, bind, query_select_by_id.
    by rewrite (where_id_unique _ _ Hids Ha).
Qed.

Lemma root_fetch_application_witness :
  let w := world_of [alice] alice_files true in
  Root.get_applications_id None w
  = (Some (reply 400 false (Some "Invalid application ID") no_payload), w)
  /\ Root.get_applications_id (Some 7%Z) w
     = (Some (reply 404 false (Some "Application not found") no_payload),
        sent w (Select_by_id 7))
  /\ Root.get_applications_id (Some 1%Z) w
     = (Some (reply 200 true None (row alice)), sent w (Select_by_id 1)).
Proof.
  intros w. destruct (root_fetch_application w) as (Hnan & Hnone & Hsome).
  - apply NoDup_cons. split; [apply not_elem_of_nil | apply NoDup_nil_2].
  - split; [exact Hnan|]. split.
    + apply Hnone; [unfold int4; lia|]. intros a [<-|[]]. discriminate.
    + apply (Hsome alice); [unfold int4; simpl; lia|]. left. reflexivity.
Defined.

Lemma put_rows (put : status_request -> world -> outcome) (i : Z) (st : string) (w : world) :
  put = Root.put_applications_id \/ put = Backend.put_applications_id ->
  In st statuses ->
  rows (db (snd (put {| put_id := Some i; put_status := JStr st |} w)))
  = update_where_id i (set_status st) (rows (db w))
  /\ uploads (snd (put {| put_id := Some i; put_status := JStr st |} w)) = uploads w.
Proof.
  intros Hput Hst. pose proof (includes_value_In st Hst) as Hv.
  destruct Hput as [-> | ->];
    unfold Root.put_applications_id, Backend.put_applications_id, run,
      Root.put_application, Backend.put_application, try_catch, bind,
      query_update_status, query_update;
    cbn [put_status put_id]; rewrite Hv; cbn [negb text_of];
    destruct (where_id i (update_where_id i (set_status st) (rows (db w))));
    done.
Qed.

(** X9. After a status update of an existing application to a valid
    target, on either server, [GET /api/applications/:id] returns a row with
    the id asked for and the target status, whose reference id, name,
    contact, department, job role and document pointers, and whose
    offer-letter pointer, are those the application had.  Nothing is said of
    the columns the rows here do not carry: the timestamps, which a trigger
    of [init.sql] rewrites at every update, and the profile columns. *)
Theorem status_update_then_fetch (put : status_request -> world -> outcome)
    (w : world) (a : application) (st : string) :
  put = Root.put_applications_id \/ put = Backend.put_applications_id ->
  ids_unique w ->
  In a (rows (db w)) ->
  int4 (app_id a) ->
  In st statuses ->
  exists r,
    fst (Root.get_applications_id (Some (app_id a))
           (snd (put {| put_id := Some (app_id a); put_status := JStr st |} w)))
    = Some (reply 200 true None (row r))
    /\ status r = st
    /\ identity r = identity a
    /\ offer_letter_path r = offer_letter_path a.
Proof.
  intros Hput Hids Ha _ Hst.
  destruct (put_rows put (app_id a) st w Hput Hst) as [Hrows _].
  unfold Root.get_applications_id, run, Root.fetch_application, try_catch, bind,
    query_select_by_id.
  rewrite Hrows, where_id_update by apply set_status_id.
  rewrite (where_id_unique _ _ Hids Ha).
  exists (set_status st a). repeat apply conj; reflexivity.
Qed.

Lemma status_update_then_fetch_witness :
  let w := world_of [alice] alice_files true in
  exists r,
    fst (Root.get_applications_id (Some 1%Z)
           (snd (Backend.put_applications_id
                   {| put_id := Some 1%Z; put_status := JStr "Rejected" |} w)))
    = Some (reply 200 true None (row r))
    /\ status r = "Rejected"
    /\ identity r = identity alice
    /\ offer_letter_path r = offer_letter_path alice.
Proof.
  intros w.
  apply (status_update_then_fetch Backend.put_applications_id w alice "Rejected").
  - right. reflexivity.
  - apply NoDup_cons. split; [apply not_elem_of_nil | apply NoDup_nil_2].
  - left. reflexivity.
  - unfold int4. simpl. lia.
  - simpl. tauto.
Defined.

(** X10. Of two status updates of the same id in a row, the second one
    decides: the table after both is the table after the second alone,
    whichever server handles each of them, and whether or not an application
    has the id. *)
Theorem last_status_update_wins (put1 put2 : status_request -> world -> outcome)
    (w : world) (i : Z) (st1 st2 : string) :
  put1 = Root.put_applications_id \/ put1 = Backend.put_applications_id ->
  put2 = Root.put_applications_id \/ put2 = Backend.put_applications_id ->
  In st1 statuses ->
  In st2 statuses ->
  rows (db (snd (put2 {| put_id := Some i; put_status := JStr st2 |}
                   (snd (put1 {| put_id := Some i; put_status := JStr st1 |} w)))))
  = rows (db (snd (put2 {| put_id := Some i; put_status := JStr st2 |} w))).
Proof.
  intros H1 H2 Hst1 Hst2.
  destruct (put_rows put2 i st2 w H2 Hst2) as [-> _].
  destruct (put_rows put2 i st2
              (snd (put1 {| put_id := Some i; put_status := JStr st1 |} w)) H2 Hst2)
    as [-> _].
  destruct (put_rows put1 i st1 w H1 Hst1) as [-> _].
  by rewrite update_where_id_compose by apply set_status_id.
Qed.

Lemma last_status_update_wins_witness :
  let w := world_of [alice] alice_files true in
  rows (db (snd (Root.put_applications_id
                   {| put_id := Some 1%Z; put_status := JStr "Pending" |}
                   (snd (Backend.put_applications_id
                           {| put_id := Some 1%Z; put_status := JStr "Approved" |} w)))))
  = rows (db (snd (Root.put_applications_id
                     {| put_id := Some 1%Z; put_status := JStr "Pending" |} w))).
Proof.
  intros w.
  apply (last_status_update_wins Backend.put_applications_id Root.put_applications_id
           w 1 "Approved" "Pending").
  - right. reflexivity.
  - left. reflexivity.
  - simpl. tauto.
  - simpl. tauto.
Defined.

(** X11. An id that is not a number stops a status update in different
    places: [Root] answers 400 'Invalid application ID' before it looks at
    the status and sends nothing; [Backend] sends the statement for a valid
    status, the database refuses the id, and the answer is 500 'Failed to
    update status'.  The rows are unchanged either way. *)
Theorem status_update_with_bad_id (st : jsval) (w : world) :
  Root.put_applications_id {| put_id := None; put_status := st |} w
  = (Some (reply 400 false (Some "Invalid application ID") no_payload), w)
  /\ forall s, In s statuses ->
       Backend.put_applications_id {| put_id := None; put_status := JStr s |} w
       = (Some (reply 500 false (Some "Failed to update status") no_payload),
          sent w (Update_status s None)).
Proof.
  split; [reflexivity|]. intros s Hs. pose proof (includes_value_In s Hs) as Hv.
  unfold Backend.put_applications_id, run, Backend.put_application, try_catch, bind,
    query_update_status, query_update.
  cbn [put_status put_id]. by rewrite Hv.
Qed.

(** ** Offer letters: what an upload leaves behind *)

(** The deletion of the previous offer letter, in a world where the new
    file is stored: the only name that can go is the recorded one. *)
Lemma delete_previous_world (r : application) (w : world) :
  exists w', Root.delete_previous r w = (inr tt, w')
    /\ db w' = db w /\ queries w' = queries w
    /\ (forall n, offer_letter_path r <> Some n -> uploads w' !! n = uploads w !! n)
    /\ (forall n, uploads w' !! n = None \/ uploads w' !! n = uploads w !! n).
Proof.
  unfold Root.delete_previous.
  destruct (offer_letter_path r) as [old|]; [|exists w; by auto 10].
  destruct (truthy (JStr old)); [|exists w; by auto 10].
  unfold bind, existsSync, unlinkSync.
  destruct (uploads w !! old) as [c|] eqn:Hold.
  - rewrite bool_decide_true by eauto. rewrite Hold.
    eexists. split; [reflexivity|]. world_norm. repeat split.
    + intros n Hn. apply lookup_delete_ne. congruence.
    + intros n. destruct (decide (old = n)) as [->|Hne].
      * left. apply lookup_delete_eq.
      * right. by apply lookup_delete_ne.
  - rewrite bool_decide_false by (intros [? ?]; done). exists w. by auto 10.
Qed.

(** The upload for an approved application, whatever offer letter it had
    before, as long as the pointer does not already name the new file. *)
Lemma root_issue_approved (w : world) (a : application) (file : upfile) :
  ids_unique w ->
  In a (rows (db w)) ->
  status a = "Approved" ->
  uploads w !! filename file = None ->
  offer_letter_path a <> Some (filename file) ->
  exists w',
    Root.post_offer_letter {| offer_id := Some (app_id a); offer_file := Some file |} w
    = (Some (reply 200 true None (id_offer (app_id a) (Some (filename file)))), w')
    /\ rows (db w')
       = update_where_id (app_id a) (set_offer_letter_path (filename file)) (rows (db w))
    /\ uploads w' !! filename file = Some (content file)
    /\ (forall n, n <> filename file -> offer_letter_path a <> Some n ->
          uploads w' !! n = uploads w !! n).
Proof.
  intros Hids Ha Hst Hfresh Hptr.
  unfold Root.post_offer_letter, run, Root.upload_offer_letter, try_catch, bind,
    query_select_by_id.
  cbn [offer_id offer_file]. world_norm.
  rewrite (where_id_unique _ _ Hids Ha).
  rewrite Hst. cbn [String.eqb Ascii.eqb Bool.eqb negb andb].
  destruct (delete_previous_world a
              (sent (store_file file w) (Select_by_id (app_id a))))
    as (w2 & -> & Hdb & Hq & Hother & _).
  world_norm.
  unfold query_update_offer, query_update, ret. world_norm.
  rewrite Hdb, where_id_update by apply set_offer_letter_path_id.
  rewrite (where_id_unique _ _ Hids Ha). cbn [map].
  eexists. split; [reflexivity|]. world_norm. cbn [with_rows rows].
  split; [done|]. split.
  - rewrite Hother by done. apply lookup_insert_eq.
  - intros n Hn Hp. rewrite Hother by done. by apply lookup_insert_ne.
Qed.

(** X12. On [Root], uploading an offer letter for an id that PostgreSQL
    reads as an [INTEGER] and that no application has is answered 404 and
    the uploaded file is deleted again, so that the world is as before but
    for the statement sent; for an id that is not a number the answer is 400
    and the uploaded file is left in the upload directory.  (An id beyond
    the range of [INTEGER] is refused by the database.) *)
Theorem root_offer_letter_bad_id (w : world) (file : upfile) :
  uploads w !! filename file = None ->
  (forall i, int4 i -> (forall a, In a (rows (db w)) -> app_id a <> i) ->
     Root.post_offer_letter {| offer_id := Some i; offer_file := Some file |} w
     = (Some (reply 404 false (Some "Application not found") no_payload),
        sent w (Select_by_id i)))
  /\ (exists w',
        Root.post_offer_letter {| offer_id := None; offer_file := Some file |} w
        = (Some (reply 400 false (Some "Invalid application ID") no_payload), w')
        /\ uploads w' !! filename file = Some (content file)
        /\ db w' = db w /\ queries w' = queries w).
Proof.
  intros Hfresh. split.
  - intros i _ Hi.
    unfold Root.post_offer_letter, run, Root.upload_offer_letter, try_catch, bind,
      query_select_by_id.
    cbn [offer_id offer_file]. world_norm.
    rewrite (proj2 (where_id_nil i (rows (db w))) Hi).
    rewrite unlinkSync_sent.
    change (with_uploads w (<[filename file:=content file]> (uploads w)))
      with (store_file file w).
    by rewrite (unlinkSync_stored file w Hfresh).
  - eexists. split; [reflexivity|]. world_norm. split; [|done].
    apply lookup_insert_eq.
Qed.

Lemma root_offer_letter_bad_id_witness :
  let w := world_of [alice] alice_files true in
  let file := pdf "offerLetter-9-9.pdf" "offer" in
  Root.post_offer_letter {| offer_id := Some 7%Z; offer_file := Some file |} w
  = (Some (reply 404 false (Some "Application not found") no_payload),
     sent w (Select_by_id 7))
  /\ (exists w',
        Root.post_offer_letter {| offer_id := None; offer_file := Some file |} w
        = (Some (reply 400 false (Some "Invalid application ID") no_payload), w')
        /\ uploads w' !! filename file = Some (content file)
        /\ db w' = db w /\ queries w' = queries w).
Proof.
  intros w file. destruct (root_offer_letter_bad_id w file) as (Hnone & Hnan).
  - vm_compute. reflexivity.
  - split; [|exact Hnan].
    apply Hnone; [unfold int4; lia|]. intros a [<-|[]]. discriminate.
Defined.

(** X13. On [Backend], an upload for an id that no application has, or
    for an id that is not an integer, is answered with an error (404, 500)
    and the uploaded file is deleted again: the rows and the upload
    directory are as before. *)
Theorem backend_offer_letter_bad_id (w : world) (file : upfile) :
  uploads w !! filename file = None ->
  (forall i, (forall a, In a (rows (db w)) -> app_id a <> i) ->
     exists w',
       Backend.post_offer_letter {| offer_id := Some i; offer_file := Some file |} w
       = (Some (reply 404 false (Some "Application not found") no_payload), w')
       /\ rows (db w') = rows (db w) /\ uploads w' = uploads w)
  /\ Backend.post_offer_letter {| offer_id := None; offer_file := Some file |} w
     = (Some (reply 500 false (Some "Failed to upload offer letter") no_payload),
        sent w (Update_offer (filename file) None)).
Proof.
  intros Hfresh. split.
  - intros i Hi.
    unfold Backend.post_offer_letter, run, Backend.upload_offer_letter, try_catch, bind,
      query_update_offer, query_update.
    cbn [offer_id offer_file]. world_norm.
    rewrite where_id_update by apply set_offer_letter_path_id.
    rewrite (proj2 (where_id_nil i (rows (db w))) Hi). cbn [map].
    rewrite update_where_id_absent by done.
    unfold unlinkSync. world_norm. rewrite lookup_insert_eq.
    eexists. split; [reflexivity|]. world_norm. cbn [with_rows rows].
    split; [done|]. rewrite delete_insert_eq. by apply delete_id.
  - unfold Backend.post_offer_letter, run, Backend.upload_offer_letter, try_catch, bind,
      query_update_offer, query_update.
    cbn [offer_id offer_file]. world_norm.
    rewrite unlinkSync_sent.
    change (with_uploads w (<[filename file:=content file]> (uploads w)))
      with (store_file file w).
    by rewrite (unlinkSync_stored file w Hfresh).
Qed.

Lemma backend_offer_letter_bad_id_witness :
  let w := world_of [alice] alice_files false in
  let file := pdf "offerLetter-9-9.pdf" "offer" in
  Backend.post_offer_letter {| offer_id := None; offer_file := Some file |} w
  = (Some (reply 500 false (Some "Failed to upload offer letter") no_payload),
     sent w (Update_offer (filename file) None)).
Proof.
  intros w file. apply (backend_offer_letter_bad_id w file). vm_compute. reflexivity.
Defined.

(** ** Offer letters: from the upload to the applicant *)

Lemma update_keeps_reference_ids (i : Z) (f : application -> application)
    (l : list application) :
  (forall r, reference_id (f r) = reference_id r) ->
  map reference_id (update_where_id i f l) = map reference_id l.
Proof.
  intros Hf. unfold update_where_id. rewrite map_map. apply map_ext.
  intros r. by destruct (app_id r =? i)%Z.
Qed.

Lemma update_where_id_member (i : Z) (f : application -> application)
    (l : list application) (a : application) :
  In a l -> app_id a = i -> In (f a) (update_where_id i f l).
Proof.
  intros Ha Hi. unfold update_where_id. apply in_map_iff. exists a.
  split; [|done]. apply Z.eqb_eq in Hi. by rewrite Hi.
Qed.

Lemma same_reference_same_row (l : list application) (r a : application) :
  NoDup (map reference_id l) -> In r l -> In a l ->
  reference_id r = reference_id a -> r = a.
Proof.
  induction l as [|x l IH]; [done|]. cbn [map]. intros Hnd H0 H1 E.
  apply NoDup_cons in Hnd as [Hx Hnd].
  destruct H0 as [->|H0], H1 as [->|H1]; try done.
  - destruct Hx. rewrite E. by apply list_elem_of_In, in_map.
  - destruct Hx. rewrite <- E. by apply list_elem_of_In, in_map.
  - by apply IH.
Qed.

(** The retrieval in a world where the record with these credentials is
    known. *)
Lemma retrieved_for (w : world) (a : application) :
  NoDup (map reference_id (rows (db w))) ->
  In a (rows (db w)) ->
  status a = "Approved" ->
  List.filter (matches (reference_id a) (email a)) (rows (db w)) = [a].
Proof.
  intros Hnd Ha Hst. apply (filter_unique reference_id); try done.
  - apply matches_spec. auto.
  - intros r _ Hm. by apply matches_spec in Hm as (-> & _).
Qed.

(** X14. On [Root], once an offer letter has been uploaded for an
    approved application, the retrieval with the reference id and the email
    of that application returns the name of the uploaded file, whatever
    offer letter was recorded before, and the file can be downloaded under
    that name with the content that was uploaded. *)
Theorem issued_offer_letter_is_retrieved (w : world) (a : application) (file : upfile) :
  ids_unique w ->
  NoDup (map reference_id (rows (db w))) ->
  In a (rows (db w)) ->
  status a = "Approved" ->
  reference_id a <> "" ->
  email a <> "" ->
  filename file <> "" ->
  uploads w !! filename file = None ->
  offer_letter_path a <> Some (filename file) ->
  let w1 := snd (Root.post_offer_letter
                   {| offer_id := Some (app_id a); offer_file := Some file |} w) in
  fst (Root.get_offer_letter
         {| query_reference_id := Some (reference_id a);
            query_email := Some (email a) |} w1)
  = Some (reply 200 true None (offer (Some (filename file))))
  /\ Root.get_documents (filename file) w1 = file_sent (filename file) (content file).
Proof.
  intros Hids Hrefs Ha Hst Href Hmail Hname Hfresh Hptr w1.
  destruct (root_issue_approved w a file Hids Ha Hst Hfresh Hptr)
    as (w' & Hrun & Hrows & Hfile & _).
  assert (E : w1 = w') by (subst w1; by rewrite Hrun). rewrite E. clear E w1.
  split.
  - rewrite get_offer_letter_supplied by done. cbn [fst]. f_equal.
    unfold retrieved.
    assert (Hsel : List.filter (matches (reference_id a) (email a)) (rows (db w'))
                   = [set_offer_letter_path (filename file) a]).
    { apply (retrieved_for w' (set_offer_letter_path (filename file) a)).
      - rewrite Hrows, update_keeps_reference_ids; done.
      - rewrite Hrows. by apply update_where_id_member.
      - done. }
    rewrite Hsel. cbn [set_offer_letter_path offer_letter_path].
    apply String.eqb_neq in Hname. rewrite Hname, Hfile.
    rewrite bool_decide_true; eauto.
  - unfold Root.get_documents. by rewrite Hfile.
Qed.

Lemma issued_offer_letter_is_retrieved_witness :
  let w := world_of [hired] hired_files true in
  let file := pdf "offerLetter-9-9.pdf" "second offer" in
  let w1 := snd (Root.post_offer_letter
                   {| offer_id := Some 1%Z; offer_file := Some file |} w) in
  fst (Root.get_offer_letter
         {| query_reference_id := Some "AAAAAAAAAAAAAAA";
            query_email := Some "a@x.com" |} w1)
  = Some (reply 200 true None (offer (Some "offerLetter-9-9.pdf")))
  /\ Root.get_documents "offerLetter-9-9.pdf" w1
     = file_sent "offerLetter-9-9.pdf" "second offer".
Proof.
  intros w file.
  apply (issued_offer_letter_is_retrieved w hired file); try discriminate;
    try reflexivity.
  - apply NoDup_cons. split; [apply not_elem_of_nil | apply NoDup_nil_2].
  - apply NoDup_cons. split; [apply not_elem_of_nil | apply NoDup_nil_2].
  - left. reflexivity.
Defined.

(** X15. When an approved application with an offer letter is set to
    another status, on either server, the record keeps its pointer and the
    file stays in the upload directory: the retrieval with the applicant's
    credentials now answers 404 'Application not found or not approved',
    while the file is still sent to whoever asks for it by name. *)
Theorem offer_letter_after_status_change (put : status_request -> world -> outcome)
    (w : world) (a : application) (st p c : string) :
  put = Root.put_applications_id \/ put = Backend.put_applications_id ->
  ids_unique w ->
  NoDup (map reference_id (rows (db w))) ->
  In a (rows (db w)) ->
  reference_id a <> "" ->
  email a <> "" ->
  offer_letter_path a = Some p ->
  uploads w !! p = Some c ->
  In st statuses ->
  st <> "Approved" ->
  let w1 := snd (put {| put_id := Some (app_id a); put_status := JStr st |} w) in
  fst (Root.get_offer_letter
         {| query_reference_id := Some (reference_id a);
            query_email := Some (email a) |} w1)
  = Some (not_found "Application not found or not approved")
  /\ fst (Root.get_applications_id (Some (app_id a)) w1)
     = Some (reply 200 true None (row (set_status st a)))
  /\ offer_letter_path (set_status st a) = Some p
  /\ Root.get_documents p w1 = file_sent p c.
Proof.
  intros Hput Hids Hrefs Ha Href Hmail Hp Hfile Hst Hne w1.
  destruct (put_rows put (app_id a) st w Hput Hst) as [Hrows Hup].
  fold w1 in Hrows, Hup.
  split; [|split; [|split]].
  - rewrite get_offer_letter_supplied by done. cbn [fst]. f_equal.
    unfold retrieved.
    replace (List.filter (matches (reference_id a) (email a)) (rows (db w1)))
      with (@nil application); [done|].
    symmetry. apply filter_nil_iff. intros r Hr.
    destruct (matches (reference_id a) (email a) r) eqn:E; [|done].
    apply matches_spec in E as (E1 & _ & E3).
    rewrite Hrows in Hr. apply update_where_id_In in Hr as (r0 & Hr0 & ->).
    destruct (Z.eqb_spec (app_id r0) (app_id a)) as [Hi|Hi].
    + cbn [set_status status] in E3. congruence.
    + destruct Hi. f_equal. by apply (same_reference_same_row (rows (db w))).
  - unfold Root.get_applications_id, run, Root.fetch_application, try_catch, bind,
      query_select_by_id.
    rewrite Hrows, where_id_update by apply set_status_id.
    by rewrite (where_id_unique _ _ Hids Ha).
  - done.
  - unfold Root.get_documents. by rewrite Hup, Hfile.
Qed.

Lemma offer_letter_after_status_change_witness :
  let w := world_of [hired] hired_files true in
  let w1 := snd (Backend.put_applications_id
                   {| put_id := Some 1%Z; put_status := JStr "Rejected" |} w) in
  fst (Root.get_offer_letter
         {| query_reference_id := Some "AAAAAAAAAAAAAAA";
            query_email := Some "a@x.com" |} w1)
  = Some (not_found "Application not found or not approved")
  /\ fst (Root.get_applications_id (Some 1%Z) w1)
     = Some (reply 200 true None (row (set_status "Rejected" hired)))
  /\ offer_letter_path (set_status "Rejected" hired) = Some "offerLetter-5-5.pdf"
  /\ Root.get_documents "offerLetter-5-5.pdf" w1
     = file_sent "offerLetter-5-5.pdf" "first offer".
Proof.
  intros w.
  apply (offer_letter_after_status_change Backend.put_applications_id w hired
           "Rejected" "offerLetter-5-5.pdf" "first offer");
    try discriminate; try reflexivity.
  - right. reflexivity.
  - apply NoDup_cons. split; [apply not_elem_of_nil | apply NoDup_nil_2].
  - apply NoDup_cons. split; [apply not_elem_of_nil | apply NoDup_nil_2].
  - left. reflexivity.
  - simpl. tauto.
Defined.

(** A retrieval without an email. *)
Lemma get_offer_letter_unsupplied_witness :
  let w := world_of [hired] hired_files true in
  Root.get_offer_letter {| query_reference_id := Some "AAAAAAAAAAAAAAA";
                           query_email := None |} w
  = (Some (reply 400 false (Some "Reference ID and email are required") no_payload), w).
Proof.
  intros w.
  apply (get_offer_letter_unsupplied w
           {| query_reference_id := Some "AAAAAAAAAAAAAAA"; query_email := None |}).
  intros ref mail _ H. discriminate H.
Defined.

(** ** Documents *)

(** X17. Every file that came with a submission can be downloaded by its
    stored name, with the content that was uploaded, once the request has
    been handled: whether the submission was accepted, refused by the
    validation or refused by the database, and on either server.  The
    download asks for nothing but the name. *)
Theorem staged_documents_are_served (post : env -> submission -> world -> outcome)
    (e : env) (req : submission) (w : world) (f : upfile) :
  post = Root.post_applications \/ post = Backend.post_applications ->
  NoDup (map filename (staged req)) ->
  In f (staged req) ->
  Root.get_documents (filename f) (snd (post e req w))
  = file_sent (filename f) (content f).
Proof.
  intros Hpost Hnd Hf. unfold Root.get_documents.
  assert (Hup : uploads (snd (post e req w)) = uploads (store_files (staged req) w)).
  { destruct Hpost as [-> | ->].
    - destruct (root_submit_keeps_files e req w) as (r & w' & -> & E). exact E.
    - destruct (backend_submit_keeps_files e req w) as (r & w' & -> & E). exact E. }
  by rewrite Hup, store_files_content.
Qed.

Lemma staged_documents_are_served_witness :
  let w := world_of [alice] alice_files true in
  let req := {| body := full_form "a@x.com" "2222222222";
                files := Some three_documents |} in
  Root.get_documents "graduationDoc-2-3.pdf" (snd (Root.post_applications fresh req w))
  = file_sent "graduationDoc-2-3.pdf" "grad of B".
Proof.
  intros w req.
  apply (staged_documents_are_served Root.post_applications fresh req w
           (pdf "graduationDoc-2-3.pdf" "grad of B")).
  - left. reflexivity.
  - compute_done.
  - right. right. left. reflexivity.
Defined.

(** ** What an offer-letter upload can delete *)

Lemma unlinkSync_other (name n : string) (w : world) :
  n <> name -> uploads (snd (unlinkSync name w)) !! n = uploads w !! n.
Proof.
  intros Hne. unfold unlinkSync. destruct (uploads w !! name); [|done].
  cbn [snd uploads with_uploads]. apply lookup_delete_ne. congruence.
Qed.

Lemma root_upload_keeps (w : world) (i : option Z) (file : upfile) (n c : string) :
  ids_unique w ->
  uploads w !! filename file = None ->
  uploads w !! n = Some c ->
  (forall a, In a (rows (db w)) -> i = Some (app_id a) -> status a = "Approved" ->
     offer_letter_path a <> Some n) ->
  uploads (snd (Root.post_offer_letter {| offer_id := i; offer_file := Some file |} w)) !! n
  = Some c.
Proof.
  intros Hids Hfresh Hn Hptr.
  assert (Hne : n <> filename file) by congruence.
  assert (Hstaged : uploads (store_file file w) !! n = Some c).
  { unfold store_file. cbn [uploads with_uploads]. by rewrite lookup_insert_ne. }
  unfold Root.post_offer_letter, run, Root.upload_offer_letter, try_catch.
  cbn [offer_id offer_file store_files fold_left].
  destruct i as [k|]; [|exact Hstaged].
  unfold bind at 1. unfold query_select_by_id.
  change (db (store_file file w)) with (db w).
  destruct (where_id k (rows (db w))) as [|r t] eqn:Hsel.
  - unfold bind. rewrite unlinkSync_sent, (unlinkSync_stored file w Hfresh). exact Hn.
  - assert (Hr : In r (rows (db w)) /\ app_id r = k)
      by (apply where_id_In; rewrite Hsel; left; done).
    destruct Hr as [Hr <-].
    destruct (String.eqb_spec (status r) "Approved") as [Happ|Hnot]; cbn [negb].
    + unfold bind.
      destruct (delete_previous_world r
                  (sent (store_file file w) (Select_by_id (app_id r))))
        as (w2 & -> & Hdb & _ & Hother & _).
      unfold query_update_offer, query_update, ret. world_norm.
      rewrite Hother by (by apply Hptr). world_norm.
      by rewrite lookup_insert_ne.
    + unfold bind. rewrite unlinkSync_sent, (unlinkSync_stored file w Hfresh). exact Hn.
Qed.

(** X18. An offer-letter upload under a new file name removes no file
    that was in the upload directory before it, with one exception: on
    [Root], the file that the approved application it is for has recorded
    as its offer letter.  [Backend] removes none at all. *)
Theorem offer_upload_deletes_previous_only (w : world) (i : option Z) (file : upfile)
    (n c : string) :
  ids_unique w ->
  uploads w !! filename file = None ->
  uploads w !! n = Some c ->
  (uploads (snd (Root.post_offer_letter {| offer_id := i; offer_file := Some file |} w)) !! n
   = Some c
   \/ exists a, In a (rows (db w)) /\ i = Some (app_id a)
                /\ status a = "Approved" /\ offer_letter_path a = Some n)
  /\ uploads (snd (Backend.post_offer_letter {| offer_id := i; offer_file := Some file |} w))
       !! n = Some c.
Proof.
  intros Hids Hfresh Hn. split.
  - destruct i as [k|].
    2:{ left. by apply root_upload_keeps. }
    destruct (where_id k (rows (db w))) as [|r t] eqn:Hsel.
    { left. apply root_upload_keeps; try done. intros a Ha [= ->].
      exfalso. eapply where_id_nil; eauto. }
    assert (Hr : In r (rows (db w)) /\ app_id r = k)
      by (apply where_id_In; rewrite Hsel; left; done).
    destruct Hr as [Hr <-].
    destruct (decide (status r = "Approved" /\ offer_letter_path r = Some n))
      as [[Hst Hp]|Hno].
    { right. exists r. auto. }
    left. apply root_upload_keeps; try done. intros a Ha [= E] Hst Hp.
    assert (a = r); [|subst a; tauto].
    assert (Hone := where_id_unique _ _ Hids Ha). rewrite <- E, Hsel in Hone.
    by injection Hone as ->.
  - assert (Hne : n <> filename file) by congruence.
    unfold Backend.post_offer_letter, run, Backend.upload_offer_letter, try_catch, bind,
      query_update_offer, query_update.
    cbn [offer_id offer_file]. world_norm.
    destruct i as [k|].
    + destruct (where_id k _) as [|r t].
      * unfold unlinkSync. world_norm. rewrite lookup_insert_eq. cbn [ret]. world_norm.
        rewrite lookup_delete_ne by congruence. by rewrite lookup_insert_ne.
      * cbn [ret]. world_norm. by rewrite lookup_insert_ne.
    + unfold unlinkSync. world_norm. rewrite lookup_insert_eq. cbn [ret]. world_norm.
      rewrite lookup_delete_ne by congruence. by rewrite lookup_insert_ne.
Qed.

Lemma offer_upload_deletes_previous_only_witness :
  let w := world_of [hired] hired_files true in
  let file := pdf "offerLetter-9-9.pdf" "second offer" in
  (uploads (snd (Root.post_offer_letter
                   {| offer_id := Some 1%Z; offer_file := Some file |} w))
     !! "sscDoc-1-1.pdf" = Some "ssc"
   \/ exists a, In a (rows (db w)) /\ Some 1%Z = Some (app_id a)
                /\ status a = "Approved" /\ offer_letter_path a = Some "sscDoc-1-1.pdf")
  /\ uploads (snd (Backend.post_offer_letter
                     {| offer_id := Some 1%Z; offer_file := Some file |} w))
       !! "sscDoc-1-1.pdf" = Some "ssc".
Proof.
  intros w file.
  apply (offer_upload_deletes_previous_only w (Some 1%Z) file "sscDoc-1-1.pdf" "ssc").
  - compute_done.
  - vm_compute. reflexivity.
  - vm_compute. reflexivity.
Defined.

(** ** What no route does to the rows *)

Lemma extends_same_db l0 (w w' : world) : db w' = db w -> extends l0 w -> extends l0 w'.
Proof. unfold extends. by intros ->. Qed.

Lemma extends_existsSync l0 name : preserves (extends l0) (existsSync name).
Proof. intros w Hw. exact Hw. Qed.

Lemma extends_unlinkSync l0 name : preserves (extends l0) (unlinkSync name).
Proof. intros w Hw. unfold unlinkSync. by destruct (uploads w !! name). Qed.

Lemma extends_select_by_id l0 i : preserves (extends l0) (query_select_by_id i).
Proof. intros w Hw. exact Hw. Qed.

Lemma extends_select_offer l0 ref mail : preserves (extends l0) (query_select_offer ref mail).
Proof. intros w Hw. exact Hw. Qed.

Lemma extends_update l0 q i f :
  (forall r, identity (f r) = identity r) ->
  preserves (extends l0) (query_update q i f).
Proof.
  intros Hf w (ext & Hw). unfold query_update.
  destruct i as [n|]; [|by exists ext].
  exists ext. world_norm. cbn [with_rows rows]. rewrite <- Hw.
  unfold update_where_id. rewrite map_map. apply map_ext.
  intros r. by destruct (app_id r =? n)%Z.
Qed.

Lemma extends_insert l0 mk : preserves (extends l0) (query_insert mk).
Proof.
  intros w (ext & Hw). unfold query_insert, insert.
  destruct (violated (db w) (mk (next_id (db w)))); [by exists ext|].
  exists (ext ++ [identity (mk (next_id (db w)))]).
  world_norm. cbn [bump with_rows rows]. rewrite map_app, Hw. cbn [map].
  by rewrite <- app_assoc.
Qed.

Ltac rows_step :=
  first
    [ apply preserves_ret
    | apply preserves_throw
    | apply extends_existsSync
    | apply extends_unlinkSync
    | apply extends_select_by_id
    | apply extends_select_offer
    | apply extends_update; intros ?; reflexivity
    | apply extends_insert
    | apply preserves_try_catch; [|intros ?]
    | apply preserves_bind; [|intros ?]
    | match goal with
      | |- preserves _ (match ?x with _ => _ end) => destruct x
      | |- preserves _ (if ?b then _ else _) => destruct b
      end ].

Lemma extends_start (w : world) : extends (map identity (rows (db w))) w.
Proof. exists []. by rewrite app_nil_r. Qed.

Lemma extends_staged l0 fs w : extends l0 w -> extends l0 (store_files fs w).
Proof. apply extends_same_db, store_files_db. Qed.

(** X19. No route of either server removes a row, reorders the rows, or
    rewrites a column other than [status] and [offer_letter_path]: after
    any request the rows begin with the rows there were, each with its id,
    reference id, contact fields and document pointers unchanged; only an
    accepted submission adds to them. *)
Theorem routes_keep_rows (w : world) :
  (forall e req, extends (map identity (rows (db w))) (snd (Root.post_applications e req w)))
  /\ (forall req, extends (map identity (rows (db w))) (snd (Root.put_applications_id req w)))
  /\ (forall req, extends (map identity (rows (db w))) (snd (Root.post_offer_letter req w)))
  /\ (forall req, extends (map identity (rows (db w))) (snd (Root.get_offer_letter req w)))
  /\ (forall id, extends (map identity (rows (db w))) (snd (Root.get_applications_id id w)))
  /\ (forall e req, extends (map identity (rows (db w)))
                      (snd (Backend.post_applications e req w)))
  /\ (forall req, extends (map identity (rows (db w)))
                    (snd (Backend.put_applications_id req w)))
  /\ (forall req, extends (map identity (rows (db w)))
                    (snd (Backend.post_offer_letter req w))).
Proof.
  pose proof (extends_start w) as Hw. repeat apply conj; intros.
  - unfold Root.post_applications. apply preserves_run; [|by apply extends_staged].
    unfold Root.submit. repeat rows_step.
  - unfold Root.put_applications_id. apply preserves_run; [|done].
    unfold Root.put_application, query_update_status. repeat rows_step.
  - unfold Root.post_offer_letter. apply preserves_run; [|by apply extends_staged].
    unfold Root.upload_offer_letter, Root.delete_previous, query_update_offer.
    repeat rows_step.
  - unfold Root.get_offer_letter. apply preserves_run; [|done].
    unfold Root.download_offer_letter. repeat rows_step.
  - unfold Root.get_applications_id. apply preserves_run; [|done].
    unfold Root.fetch_application. repeat rows_step.
  - unfold Backend.post_applications. apply preserves_run; [|by apply extends_staged].
    unfold Backend.submit. repeat rows_step.
  - unfold Backend.put_applications_id. apply preserves_run; [|done].
    unfold Backend.put_application, query_update_status. repeat rows_step.
  - unfold Backend.post_offer_letter. apply preserves_run; [|by apply extends_staged].
    unfold Backend.upload_offer_letter, query_update_offer. repeat rows_step.
Qed.

(** ** Witnesses of the lemmas on keys and offer letters *)

Lemma routes_keep_keys_witness :
  let w := world_of [alice] alice_files true in
  well_keyed (snd (Root.post_applications fresh
                     {| body := full_form "b@x.com" "2222222222";
                        files := Some three_documents |} w)).
Proof.
  intros w.
  apply (routes_keep_keys w).
  split; [compute_done|]. split; [compute_done|].
  intros r [<-|[]]. reflexivity.
Defined.

Lemma gate_witness :
  let w := world_of [alice] alice_files true in
  exists r w',
    Root.post_offer_letter
      {| offer_id := Some 1%Z; offer_file := Some (pdf "offerLetter-9-9.pdf" "offer") |} w
    = (Some r, w')
    /\ (code r = 200 <->
        exists a, In a (rows (db w)) /\ Some 1%Z = Some (app_id a) /\ status a = "Approved").
Proof.
  intros w.
  apply (RootOffer.gate w (Some 1%Z) (pdf "offerLetter-9-9.pdf" "offer")).
  compute_done.
Defined.

Lemma refused_witness :
  let w := world_of [alice] alice_files true in
  Root.post_offer_letter
    {| offer_id := Some 1%Z; offer_file := Some (pdf "offerLetter-9-9.pdf" "offer") |} w
  = (Some (reply 400 false
             (Some "Application must be approved to upload an offer letter") no_payload),
     sent w (Select_by_id 1)).
Proof.
  intros w.
  apply (RootOffer.refused w alice (pdf "offerLetter-9-9.pdf" "offer")).
  - compute_done.
  - left. reflexivity.
  - discriminate.
  - vm_compute. reflexivity.
Defined.

Lemma reissue_witness :
  let w := world_of [hired] hired_files true in
  let file := pdf "offerLetter-9-9.pdf" "second offer" in
  exists w',
    Root.post_offer_letter {| offer_id := Some 1%Z; offer_file := Some file |} w
    = (Some (reply 200 true None (id_offer 1 (Some "offerLetter-9-9.pdf"))), w')
    /\ uploads w' = delete "offerLetter-5-5.pdf"
                      (<["offerLetter-9-9.pdf" := "second offer"]> (uploads w))
    /\ uploads w' !! "offerLetter-5-5.pdf" = None
    /\ uploads w' !! "offerLetter-9-9.pdf" = Some "second offer"
    /\ rows (db w')
       = update_where_id 1 (set_offer_letter_path "offerLetter-9-9.pdf") (rows (db w)).
Proof.
  intros w file.
  apply (RootOffer.reissue w hired file "offerLetter-5-5.pdf" "first offer").
  - compute_done.
  - left. reflexivity.
  - reflexivity.
  - reflexivity.
  - discriminate.
  - vm_compute. reflexivity.
  - vm_compute. reflexivity.
Defined.

Lemma no_gate_witness :
  let w := world_of [set_status "Rejected" alice] alice_files false in
  let file := pdf "offerLetter-9-9.pdf" "offer" in
  exists w',
    Backend.post_offer_letter {| offer_id := Some 1%Z; offer_file := Some file |} w
    = (Some (reply 200 true (Some "Offer letter uploaded successfully")
               (file_path "/Uploads/offerLetter-9-9.pdf")), w')
    /\ uploads w' = <["offerLetter-9-9.pdf" := "offer"]> (uploads w)
    /\ rows (db w')
       = update_where_id 1 (set_offer_letter_path "offerLetter-9-9.pdf") (rows (db w)).
Proof.
  intros w file.
  apply (BackendOffer.no_gate w (set_status "Rejected" alice) file).
  left. reflexivity.
Defined.

(** ** The names of stored files *)

Lemma append_nil (b : string) : "" +:+ b = b.
Proof. reflexivity. Qed.

Lemma append_cons (x : ascii) (a b : string) : String x a +:+ b = String x (a +:+ b).
Proof. reflexivity. Qed.

Lemma append_assoc (a b c : string) : (a +:+ b) +:+ c = a +:+ (b +:+ c).
Proof.
  induction a as [|x a IH]; [done|]. rewrite !append_cons. by rewrite IH.
Qed.

Lemma append_inv_head (a b c : string) : a +:+ b = a +:+ c -> b = c.
Proof.
  induction a as [|x a IH]; [done|]. rewrite !append_cons. intros [= H]. by apply IH.
Qed.

Lemma all_digits_app (a b : string) :
  all_digits a = true -> all_digits b = true -> all_digits (a +:+ b) = true.
Proof.
  induction a as [|x a IH]; [done|]. rewrite append_cons. simpl.
  intros [Hx Ha]%andb_true_iff Hb. by rewrite Hx, IH.
Qed.

Lemma pretty_N_char_digit (x : N) : is_digit (pretty_N_char x) = true.
Proof. unfold pretty_N_char. by repeat case_match. Qed.

Lemma pretty_N_go_digits (x : N) (s : string) :
  exists d, pretty_N_go x s = d +:+ s /\ all_digits d = true.
Proof.
  revert s. induction (N.lt_wf_0 x) as [x _ IH]. intros s.
  assert (x = 0 \/ 0 < x)%N as [->|Hpos] by lia.
  - exists "". by rewrite pretty_N_go_0.
  - rewrite pretty_N_go_step by done.
    destruct (IH (x `div` 10)%N (N.div_lt x 10 Hpos eq_refl)
                (String (pretty_N_char (x `mod` 10)) s)) as (d & -> & Hd).
    exists (d +:+ String (pretty_N_char (x `mod` 10)) "").
    split; [by rewrite append_assoc|].
    apply all_digits_app; [done|]. simpl. by rewrite pretty_N_char_digit.
Qed.

Lemma pretty_digits (x : N) : all_digits (pretty x) = true.
Proof.
  unfold pretty, pretty_N. case_decide; [done|].
  destruct (pretty_N_go_digits x "") as (d & -> & Hd).
  apply all_digits_app; done.
Qed.

(** Two strings of digits, each followed by something that is not a digit,
    are read apart in one way only. *)
Lemma digits_split (d1 d2 r1 r2 : string) :
  all_digits d1 = true -> all_digits d2 = true ->
  no_digit_ahead r1 = true -> no_digit_ahead r2 = true ->
  d1 +:+ r1 = d2 +:+ r2 -> d1 = d2 /\ r1 = r2.
Proof.
  revert d2. induction d1 as [|x d1 IH]; intros [|y d2];
    rewrite ?append_nil, ?append_cons; simpl.
  - done.
  - intros _ [Hy _]%andb_true_iff H1 _ ->. simpl in H1. by rewrite Hy in H1.
  - intros [Hx _]%andb_true_iff _ _ H2 <-. simpl in H2. by rewrite Hx in H2.
  - intros [_ H1]%andb_true_iff [_ H2]%andb_true_iff Hr1 Hr2 [= -> H].
    destruct (IH d2 H1 H2 Hr1 Hr2 H) as [-> ->]. done.
Qed.

Lemma extension_no_digit (ext : string) : extension ext -> no_digit_ahead ext = true.
Proof. by intros [->|(rest & ->)]. Qed.

Lemma stored_name_inj (f f' : string) (t t' d d' : N) (ext ext' : string) :
  In f upload_fields ->
  In f' upload_fields ->
  extension ext ->
  extension ext' ->
  stored_name f t d ext = stored_name f' t' d' ext' ->
  f = f' /\ t = t' /\ d = d' /\ ext = ext'.
Proof.
  intros Hf Hf' Hext Hext' H.
  assert (f = f') as <-.
  { unfold upload_fields in Hf, Hf'. unfold stored_name in H.
    cbn [In] in Hf, Hf'.
    repeat (destruct Hf as [<-|Hf]; [|]); try (by destruct Hf);
      repeat (destruct Hf' as [<-|Hf']; [|]); try (by destruct Hf');
      try reflexivity; rewrite ?append_cons in H; discriminate H. }
  split; [done|]. unfold stored_name in H.
  do 2 apply append_inv_head in H.
  apply digits_split in H as [Ht H]; [|apply pretty_digits..|done|done].
  apply (inj pretty) in Ht. split; [done|].
  apply append_inv_head in H.
  apply digits_split in H as [Hd H];
    [|apply pretty_digits..|by apply extension_no_digit|by apply extension_no_digit].
  apply (inj pretty) in Hd. done.
Qed.

(** X20. Two uploads get different stored names as soon as they differ in
    the field they came under, in the millisecond, in the random draw or in
    the extension: a new file takes the name of a stored one only when all
    four coincide. *)
Theorem stored_names_distinct (f f' : string) (t t' d d' : N) (ext ext' : string) :
  In f upload_fields ->
  In f' upload_fields ->
  extension ext ->
  extension ext' ->
  f <> f' \/ t <> t' \/ d <> d' \/ ext <> ext' ->
  stored_name f t d ext <> stored_name f' t' d' ext'.
Proof.
  intros Hf Hf' Hext Hext' Hdiff H.
  destruct (stored_name_inj f f' t t' d d' ext ext' Hf Hf' Hext Hext' H)
    as (? & ? & ? & ?).
  tauto.
Qed.

Lemma stored_names_distinct_witness :
  stored_name "sscDoc" 1700000000000 5 ".pdf"
  <> stored_name "sscDoc" 1700000000000 6 ".pdf".
Proof.
  apply (stored_names_distinct "sscDoc" "sscDoc" 1700000000000 1700000000000 5 6
           ".pdf" ".pdf").
  - left. reflexivity.
  - left. reflexivity.
  - right. exists "pdf". reflexivity.
  - right. exists "pdf". reflexivity.
  - right. right. left. discriminate.
Defined.

(** ** The errors of the middleware of [Backend] *)

(** X21. On [Backend], a file that the file filter refuses is answered
    500 'Internal server error', not 400, because the filter's error is not
    a [MulterError]; a file whose original name has no extension is refused
    whatever its media type; an origin that the CORS check refuses is
    answered 403; and every [MulterError], such as a file over the size
    limit, is answered 400. *)
Theorem backend_middleware_answers (e : env) :
  (forall mimetype ext err,
     Backend.fileFilter mimetype ext = inl err ->
     code (Backend.error_middleware e err) = 500
     /\ message (Backend.error_middleware e err) = Some "Internal server error")
  /\ (forall mimetype, exists err, Backend.fileFilter mimetype "" = inl err)
  /\ (forall o err,
        Backend.origin o = inl err ->
        code (Backend.error_middleware e err) = 403
        /\ message (Backend.error_middleware e err) = Some "CORS policy violation")
  /\ (forall msg,
        code (Backend.error_middleware e (Multer_error msg)) = 400
        /\ details (Backend.error_middleware e (Multer_error msg)) = Some msg).
Proof.
  repeat apply conj.
  - intros mimetype ext err. unfold Backend.fileFilter.
    destruct (_ && _); [discriminate|]. intros [= <-]. done.
  - intros mimetype. unfold Backend.fileFilter.
    replace (Backend.filetypes (toLowerCase "")) with false by reflexivity.
    rewrite andb_false_r. eauto.
  - intros o err. unfold Backend.origin.
    destruct (_ || _); [discriminate|]. intros [= <-]. done.
  - done.
Qed.
